(** * The console log writer of go-core ([log/codecomet_writer.go])

    A shallow embedding of [CodecometWriter.Write] and of the functions it
    calls, followed by the properties of the rendering that the
    specification states.

    Conventions.
    - A Go [string] and a [bytes.Buffer] are Rocq strings (sequences of
      bytes); [buf.Len() > 0] is [buf <> ""].
    - An [interface{}] is a [Value]; a [map[string]interface{}] is a
      [gmap string Value].
    - A Go [error] is its message.
    - A run-time panic is the outcome [Panicked].
    - The libraries the writer calls and that live outside the repository
      (encoding/json, strconv, time, parts of fmt and strings, the zerolog
      marshal hook) are the fields of the class [Runtime]. *)

From Stdlib Require Import ZArith Ascii String DecimalString.
From stdpp Require Import gmap strings list fin_maps sorting.
From Equations Require Import Equations.

Set Warnings "-register-all".

Local Open Scope Z_scope.

(** ** Bytes and strings *)

Definition ESC : ascii := "027"%char.
Definition LF : ascii := "010"%char.
Definition TAB : ascii := "009"%char.
Definition DQUOTE : ascii := "034"%char.
Definition BACKSLASH : ascii := "092"%char.

Definition esc : string := String ESC "".
Definition nl : string := String LF "".
Definition tab : string := String TAB "".

Definition byteOf (c : ascii) : Z := Z.of_N (N_of_ascii c).

Definition bytes (s : string) : list ascii := list_ascii_of_string s.

Definition len (s : string) : Z := Z.of_nat (String.length s).

(** [strconv.Itoa] / the verb [%d]. *)
Definition itoa (n : Z) : string := NilZero.string_of_int (Z.to_int n).

(** ** Dynamic values

    The dynamic types an [interface{}] takes in this program: what
    [json.Decoder] with [UseNumber] produces, and the [[]byte] returned by
    the marshal hook. A [json.Number] is the text of the literal. *)

Inductive Value : Type :=
  | VNil
  | VString (s : string)
  | VNumber (tok : string)
  | VBool (b : bool)
  | VArray (l : list Value)
  | VObject (m : gmap string Value)
  | VBytes (b : string).

Definition error : Type := string.

(** The result of a call: a normal return or a panic. *)
Inductive Outcome (A : Type) : Type :=
  | Returned (a : A)
  | Panicked.
Arguments Returned {A} a.
Arguments Panicked {A}.

(** ** Constants of the package and of zerolog *)

Definition colorBlack : Z := 30.
Definition colorRed : Z := 31.
Definition colorGreen : Z := 32.
Definition colorYellow : Z := 33.
Definition colorBlue : Z := 34.
Definition colorMagenta : Z := 35.
Definition colorCyan : Z := 36.
Definition colorWhite : Z := 37.
Definition colorBold : Z := 1.
Definition colorDarkGray : Z := 65.

Definition ModeFieldName : string := "mode".
Definition ContextFieldName : string := "ctx".
Definition ContextFieldDefault : string := "core".

(** [time.Kitchen]. *)
Definition consoleDefaultTimeFormat : string := "3:04PM".

(** zerolog's field names and level values (its defaults). *)
Definition LevelFieldName : string := "level".
Definition TimestampFieldName : string := "time".
Definition MessageFieldName : string := "message".
Definition CallerFieldName : string := "caller".
Definition ErrorFieldName : string := "error".

Definition LevelTraceValue : string := "trace".
Definition LevelDebugValue : string := "debug".
Definition LevelInfoValue : string := "info".
Definition LevelWarnValue : string := "warn".
Definition LevelErrorValue : string := "error".
Definition LevelFatalValue : string := "fatal".
Definition LevelPanicValue : string := "panic".

(** zerolog's [TimeFormatUnix*] selectors for [TimeFieldFormat]. *)
Definition TimeFormatUnix : string := "".
Definition TimeFormatUnixMs : string := "UNIXMS".
Definition TimeFormatUnixMicro : string := "UNIXMICRO".
Definition TimeFormatUnixNano : string := "UNIXNANO".

(** ** The libraries outside the repository *)

Class Runtime : Type := {
  (** [json.NewDecoder(bytes.NewReader(p))], [UseNumber], [Decode(&evt)]
      into a nil [map[string]interface{}]. *)
  jsonDecode : string -> error + gmap string Value;
  (** [zerolog.InterfaceMarshalFunc]. *)
  InterfaceMarshalFunc : Value -> error + string;
  (** [strconv.Quote]. *)
  Quote : string -> string;
  (** The verb [%s] with a minimal width, left-justified, on an operand
      that is neither a string, a [json.Number] nor a byte slice. *)
  fmtReflect : nat -> Value -> string;
  (** [strings.ToUpper] on a string with a byte outside ASCII. *)
  unicodeToUpper : string -> string;
  (** Package time. *)
  time_Time : Type;
  TimeFieldFormat : string;
  ParseInLocation : string -> string -> option time_Time;
  time_Local : time_Time -> time_Time;
  time_Unix : Z -> Z -> time_Time;
  time_Format : time_Time -> string -> string
}.

(** [io.Writer]: one call of [Write] on a sink in state [S] gives the next
    state, the count and the error. *)
Class ioWriter (S : Type) : Type :=
  ioWrite : S -> string -> S * (Z * option error).

(** ** Package utf8, strings, strconv and fmt, as far as the writer uses them *)

(** [utf8.RuneCountInString]: a byte below 0x80 is one rune; a leading byte
    with its continuation bytes in range is one rune; any other byte is
    one rune of its own. *)
Definition inRange (lo hi : Z) (c : ascii) : bool :=
  (lo <=? byteOf c) && (byteOf c <=? hi).

Definition locb : Z := 128.
Definition hicb : Z := 191.

(** The size and the range accepted for the second byte, from the table
    [first] and [acceptRanges]; [None] for an invalid leading byte. *)
Definition leading (c : ascii) : option (nat * (Z * Z)) :=
  let b := byteOf c in
  if (194 <=? b) && (b <=? 223) then Some (2%nat, (locb, hicb))
  else if b =? 224 then Some (3%nat, (160, hicb))
  else if (225 <=? b) && (b <=? 236) then Some (3%nat, (locb, hicb))
  else if b =? 237 then Some (3%nat, (locb, 159))
  else if (238 <=? b) && (b <=? 239) then Some (3%nat, (locb, hicb))
  else if b =? 240 then Some (4%nat, (144, hicb))
  else if (241 <=? b) && (b <=? 243) then Some (4%nat, (locb, hicb))
  else if b =? 244 then Some (4%nat, (locb, 143))
  else None.

(** The number of bytes of the rune that starts at the head of [c :: rest]. *)
Definition runeSize (c : ascii) (rest : list ascii) : nat :=
  if byteOf c <? 128 then 1%nat
  else match leading c with
       | None => 1%nat
       | Some (size, (lo, hi)) =>
           if (length rest <? pred size)%nat then 1%nat
           else match rest with
                | c1 :: r1 =>
                    if negb (inRange lo hi c1) then 1%nat
                    else if (size =? 2)%nat then 2%nat
                    else match r1 with
                         | c2 :: r2 =>
                             if negb (inRange locb hicb c2) then 1%nat
                             else if (size =? 3)%nat then 3%nat
                             else match r2 with
                                  | c3 :: _ =>
                                      if negb (inRange locb hicb c3) then 1%nat
                                      else 4%nat
                                  | [] => 1%nat
                                  end
                         | [] => 1%nat
                         end
                | [] => 1%nat
                end
       end.

(** [skip] bytes belong to the rune counted last. *)
Fixpoint runeCountFrom (skip : nat) (l : list ascii) : nat :=
  match l with
  | [] => 0%nat
  | c :: rest =>
      match skip with
      | S k => runeCountFrom k rest
      | O => S (runeCountFrom (pred (runeSize c rest)) rest)
      end
  end.

Definition RuneCountInString (s : string) : nat := runeCountFrom 0 (bytes s).

Fixpoint spaces (n : nat) : string :=
  match n with
  | O => ""
  | S k => String " " (spaces k)
  end.

(** The padding of [%-Ns]: spaces on the right up to [width] runes. *)
Definition padRight (width : nat) (s : string) : string :=
  s +:+ spaces (width - RuneCountInString s).

Definition isASCII (s : string) : bool :=
  forallb (fun c => byteOf c <? 128) (bytes s).

Definition upperByte (c : ascii) : ascii :=
  if inRange 97 122 c then ascii_of_N (Z.to_N (byteOf c - 32)) else c.

Fixpoint mapBytes (f : ascii -> ascii) (s : string) : string :=
  match s with
  | EmptyString => EmptyString
  | String c r => String (f c) (mapBytes f r)
  end.

(** [strconv.ParseInt(s, 10, 64)], which [json.Number.Int64] calls. *)
Definition digitVal (c : ascii) : option Z :=
  if inRange 48 57 c then Some (byteOf c - 48) else None.

Fixpoint parseDigits (acc : Z) (l : list ascii) : option Z :=
  match l with
  | [] => Some acc
  | c :: r =>
      match digitVal c with
      | Some d => parseDigits (10 * acc + d) r
      | None => None
      end
  end.

Definition parseUint (l : list ascii) : option Z :=
  match l with
  | [] => None
  | _ => parseDigits 0 l
  end.

Definition ParseInt64 (s : string) : option Z :=
  match bytes s with
  | [] => None
  | c :: r =>
      if Ascii.eqb c "+" then
        match parseUint r with
        | Some un => if un <? 2 ^ 63 then Some un else None
        | None => None
        end
      else if Ascii.eqb c "-" then
        match parseUint r with
        | Some un => if un <=? 2 ^ 63 then Some (- un) else None
        | None => None
        end
      else
        match parseUint (c :: r) with
        | Some un => if un <? 2 ^ 63 then Some un else None
        | None => None
        end
  end.

(** Conversion to [int64] of a product computed in [int64]. *)
Definition wrap64 (z : Z) : Z := (z + 2 ^ 63) mod 2 ^ 64 - 2 ^ 63.

Section WithRuntime.
Context {rt : Runtime}.

(** [strings.ToUpper]. *)
Definition ToUpper (s : string) : string :=
  if isASCII s then mapBytes upperByte s else unicodeToUpper s.

(** [fmt.Sprintf("%s", v)]. *)
Definition Sprintf_s (v : Value) : string :=
  match v with
  | VString s => s
  | VNumber tok => tok
  | VBytes b => b
  | VNil => "%!s(<nil>)"
  | _ => fmtReflect 0 v
  end.

(** [fmt.Sprintf("%-6s", v)]. *)
Definition Sprintf_pad6 (v : Value) : string :=
  match v with
  | VString s => padRight 6 s
  | VNumber tok => padRight 6 tok
  | VBytes b => padRight 6 b
  | _ => fmtReflect 6 v
  end.

End WithRuntime.

(** [fmt.Sprintf(format, err)] for a format whose only verb is one [%v]
    and an error operand: the verb is replaced by the message. *)
Fixpoint Sprintf_v (format : string) (msg : string) : string :=
  match format with
  | EmptyString => EmptyString
  | String c r =>
      match r with
      | String "v" r' =>
          if Ascii.eqb c "%" then msg +:+ r' else String c (Sprintf_v r msg)
      | _ => String c (Sprintf_v r msg)
      end
  end.

(** ** Colors *)

(** [colorize] returns the string [s] wrapped in ANSI code [c], unless
    [disabled] is true. Every caller passes a string. *)
Definition colorize (s : string) (c : Z) (disabled : bool) : string :=
  if disabled then s
  else esc +:+ "[" +:+ itoa c +:+ "m" +:+ s +:+ esc +:+ "[0m".

(** The test of [needsQuote] on one byte. *)
Definition quoteByte (c : ascii) : bool :=
  (byteOf c <? 32) || (126 <? byteOf c) || Ascii.eqb c " "
  || Ascii.eqb c BACKSLASH || Ascii.eqb c DQUOTE.

(** [needsQuote] returns true when the string [s] should be quoted in
    output. The source ranges over the runes of [s] and tests the first
    byte of each: every byte before the first byte outside ASCII is a
    rune of its own, and that first byte outside ASCII starts a rune and
    is above 0x7e, so the test is the test of every byte. *)
Definition needsQuote (s : string) : bool := existsb quoteByte (bytes s).

(** ** The writer *)

(** [Formatter] transforms the input into a formatted string. *)
Definition Formatter : Type := Value -> string.

(** [CodecometWriter]. The destination [Out] is an [io.Writer]; its state
    is passed to [Write] and returned by it. A nil [PartsOrder] is [None].
    A nil formatter or hook is [None]; the hook gets the event and the
    buffer and leaves the buffer in a new state. *)
Record CodecometWriter : Type := {
  NoColor : bool;
  TimeFormat : string;
  PartsOrder : option (list string);
  PartsExclude : list string;
  FieldsExclude : list string;
  FormatTimestamp : option Formatter;
  FormatLevel : option Formatter;
  FormatMessage : option Formatter;
  FormatContext : option Formatter;
  FormatMode : option Formatter;
  FormatFieldName : option Formatter;
  FormatFieldValue : option Formatter;
  FormatErrFieldName : option Formatter;
  FormatErrFieldValue : option Formatter;
  FormatExtra : option (gmap string Value -> string -> string * option error)
}.

(** [evt[k]]: nil for a key that is absent. *)
Definition valueAt (evt : gmap string Value) (k : string) : Value :=
  default VNil (evt !! k).

(** *** Default formatters *)

Definition consoleDefaultPartsOrder : list string :=
  [TimestampFieldName; LevelFieldName; ContextFieldName; ModeFieldName;
   MessageFieldName].

Section Formatters.
Context {rt : Runtime}.

Definition consoleDefaultFormatTimestamp (timeFormat : string)
    (noColor : bool) : Formatter :=
  let timeFormat :=
    if String.eqb timeFormat "" then consoleDefaultTimeFormat else timeFormat in
  fun i =>
    let t :=
      match i with
      | VString str =>
          match ParseInLocation TimeFieldFormat str with
          | None => str
          | Some ts => time_Format (time_Local ts) timeFormat
          end
      | VNumber num =>
          match ParseInt64 num with
          | None => num
          | Some i =>
              let '(sec, nsec) :=
                if String.eqb TimeFieldFormat TimeFormatUnixNano then (0, i)
                else if String.eqb TimeFieldFormat TimeFormatUnixMicro
                then (0, wrap64 (i * 1000))
                else if String.eqb TimeFieldFormat TimeFormatUnixMs
                then (0, wrap64 (i * 1000000))
                else (i, 0) in
              time_Format (time_Unix sec nsec) timeFormat
          end
      | _ => "<nil>"
      end in
    colorize t colorDarkGray noColor.

(** The slice [[0:3]] of the last branch panics on fewer than three
    bytes: the result is [None]. *)
Definition consoleDefaultFormatLevel (noColor : bool) (i : Value)
    : option string :=
  match i with
  | VString ll =>
      Some
        (if String.eqb ll LevelTraceValue then
           colorize "TRC" colorMagenta noColor
         else if String.eqb ll LevelDebugValue then
           colorize "DBG" colorYellow noColor
         else if String.eqb ll LevelInfoValue then
           colorize "INF" colorGreen noColor
         else if String.eqb ll LevelWarnValue then
           colorize "WRN" colorRed noColor
         else if String.eqb ll LevelErrorValue then
           colorize (colorize "ERR" colorRed noColor) colorBold noColor
         else if String.eqb ll LevelFatalValue then
           colorize (colorize "FTL" colorRed noColor) colorBold noColor
         else if String.eqb ll LevelPanicValue then
           colorize (colorize "PNC" colorRed noColor) colorBold noColor
         else colorize ll colorBold noColor)
  | VNil => Some (colorize "???" colorBold noColor)
  | _ =>
      let u := ToUpper (Sprintf_s i) in
      if (3 <=? String.length u)%nat then Some (substring 0 3 u) else None
  end.

Definition consoleDefaultFormatContext : Formatter := fun i =>
  let i := match i with VNil => VString "core" | _ => i end in
  colorize (Sprintf_pad6 i) colorBold false.

Definition consoleDefaultFormatMode : Formatter := fun i =>
  match i with
  | VNil => ""
  | _ => colorize (Sprintf_s i +:+ ": ") colorRed false
  end.

Definition consoleDefaultFormatMessage : Formatter := fun i =>
  match i with
  | VNil => ""
  | _ => Sprintf_s i
  end.

Definition consoleDefaultFormatFieldName (noColor : bool) : Formatter :=
  fun i =>
    colorize (nl +:+ tab +:+ tab +:+ tab +:+ Sprintf_s i +:+ "=") colorCyan
      noColor.

Definition consoleDefaultFormatFieldValue : Formatter := fun i => Sprintf_s i.

Definition consoleDefaultFormatErrFieldName (noColor : bool) : Formatter :=
  fun i => colorize (Sprintf_s i +:+ "=") colorCyan noColor.

Definition consoleDefaultFormatErrFieldValue (noColor : bool) : Formatter :=
  fun i => colorize (Sprintf_s i) colorRed noColor.

(** *** writePart *)

(** An override never panics here; the default of the level may. *)
Definition orDefault (o : option Formatter) (d : Value -> option string)
    : Value -> option string :=
  match o with
  | None => d
  | Some f => fun i => Some (f i)
  end.

Definition total (f : Formatter) : Value -> option string :=
  fun i => Some (f i).

(** The formatter that [writePart] selects for the part [p]. *)
Definition partFormatter (w : CodecometWriter) (p : string)
    : Value -> option string :=
  if String.eqb p LevelFieldName then
    orDefault (FormatLevel w) (consoleDefaultFormatLevel (NoColor w))
  else if String.eqb p TimestampFieldName then
    orDefault (FormatTimestamp w)
      (total (consoleDefaultFormatTimestamp (TimeFormat w) (NoColor w)))
  else if String.eqb p MessageFieldName then
    orDefault (FormatMessage w) (total consoleDefaultFormatMessage)
  else if String.eqb p ContextFieldName then
    orDefault (FormatContext w) (total consoleDefaultFormatContext)
  else if String.eqb p ModeFieldName then
    orDefault (FormatMode w) (total consoleDefaultFormatMode)
  else
    orDefault (FormatFieldValue w) (total consoleDefaultFormatFieldValue).

(** [writePart] appends a formatted part to [buf]. *)
Definition writePart (w : CodecometWriter) (buf : string)
    (evt : gmap string Value) (p : string) : option string :=
  if existsb (fun exclude => String.eqb exclude p) (PartsExclude w) then
    Some buf
  else
    match partFormatter w p (valueAt evt p) with
    | None => None
    | Some s =>
        Some
          (if (0 <? String.length s)%nat then
             (if (0 <? String.length buf)%nat then buf +:+ " " else buf) +:+ s
           else buf)
    end.

(** The loop [for _, p := range w.PartsOrder] of [Write]. *)
Fixpoint writeParts (w : CodecometWriter) (evt : gmap string Value)
    (parts : list string) (buf : string) : option string :=
  match parts with
  | [] => Some buf
  | p :: rest =>
      match writePart w buf evt p with
      | None => None
      | Some buf' => writeParts w evt rest buf'
      end
  end.

End Formatters.

(** *** Package sort *)

(** [sort.Search(n, f)]: the loop [for i < j] with [h := (i+j)/2]. *)
Equations? searchLoop (f : nat -> bool) (i j : nat) : nat by wf (j - i)%nat lt :=
  searchLoop f i j with lt_dec i j => {
    | left _ with f ((i + j) / 2)%nat => {
        | false := searchLoop f ((i + j) / 2 + 1)%nat j;
        | true := searchLoop f i ((i + j) / 2)%nat };
    | right _ := i }.
Proof.
  all: change (Nat.divmod (i + j) 1 0 1).1 with ((i + j) / 2)%nat;
    pose proof (Nat.div_mod_eq (i + j) 2) as E;
    pose proof (Nat.mod_upper_bound (i + j) 2 ltac:(lia)) as U; lia.
Qed.

Definition Search (n : nat) (f : nat -> bool) : nat := searchLoop f 0%nat n.

(** [sort.Strings]: ascending in the byte order of Go's [<] on strings.
    The order is total and antisymmetric, so the sorted list is unique
    and the algorithm does not matter. *)
Definition sortStrings (l : list string) : list string :=
  merge_sort String.le l.

(** [fields[i]] at an index in range. *)
Definition at_ (fields : list string) (i : nat) : string := fields !!! i.

(** *** writeFields *)

Definition isReserved (field : string) : bool :=
  String.eqb field LevelFieldName || String.eqb field TimestampFieldName
  || String.eqb field MessageFieldName || String.eqb field CallerFieldName
  || String.eqb field ContextFieldName || String.eqb field ModeFieldName.

Definition isExcluded (w : CodecometWriter) (field : string) : bool :=
  existsb (fun excluded => String.eqb field excluded) (FieldsExclude w).

(** The first loop: the keys that are neither excluded nor reserved, in
    the order in which the map yields them. *)
Definition collectFields (w : CodecometWriter) (keys : list string)
    : list string :=
  List.filter (fun field => negb (isExcluded w field) && negb (isReserved field))
    keys.

(** Move the "error" field to the front: the found entry is blanked, the
    name is put in front, and the blank entries are skipped. *)
Definition skipEmpty (fields : list string) : list string :=
  List.filter (fun field => negb (String.eqb field "")) fields.

Definition moveErrorToFront (fields : list string) : list string :=
  let ei :=
    Search (length fields) (fun i => String.leb ErrorFieldName (at_ fields i)) in
  if (ei <? length fields)%nat && String.eqb (at_ fields ei) ErrorFieldName then
    let fields := <[ei := ""]> fields in
    let fields := ErrorFieldName :: fields in
    skipEmpty fields
  else fields.

(** The fields in the order in which [writeFields] renders them. *)
Definition fieldOrder (w : CodecometWriter) (evt : gmap string Value)
    : list string :=
  moveErrorToFront (sortStrings (collectFields w (map_to_list evt).*1)).

Section Fields.
Context {rt : Runtime}.

Definition fieldNameFormatter (w : CodecometWriter) (field : string)
    : Formatter :=
  if String.eqb field ErrorFieldName then
    match FormatErrFieldName w with
    | None => consoleDefaultFormatErrFieldName (NoColor w)
    | Some f => f
    end
  else
    match FormatFieldName w with
    | None => consoleDefaultFormatFieldName (NoColor w)
    | Some f => f
    end.

Definition fieldValueFormatter (w : CodecometWriter) (field : string)
    : Formatter :=
  if String.eqb field ErrorFieldName then
    match FormatErrFieldValue w with
    | None => consoleDefaultFormatErrFieldValue (NoColor w)
    | Some f => f
    end
  else
    match FormatFieldValue w with
    | None => consoleDefaultFormatFieldValue
    | Some f => f
    end.

(** What the body of the last loop writes for one field, without the
    space that follows. *)
Definition fieldEntry (w : CodecometWriter) (evt : gmap string Value)
    (field : string) : string :=
  let fn := fieldNameFormatter w field in
  let fv := fieldValueFormatter w field in
  fn (VString field) +:+
  match valueAt evt field with
  | VString fValue =>
      if needsQuote fValue then fv (VString (Quote fValue))
      else fv (VString fValue)
  | VNumber fValue => fv (VNumber fValue)
  | fValue =>
      match InterfaceMarshalFunc fValue with
      | inl err => Sprintf_v (colorize "[error: %v]" colorRed (NoColor w)) err
      | inr b => fv (VBytes b)
      end
  end.

(** The last loop: [i < len(fields)-1] holds when fields remain. *)
Fixpoint writeFieldEntries (w : CodecometWriter) (evt : gmap string Value)
    (fields : list string) (buf : string) : string :=
  match fields with
  | [] => buf
  | field :: rest =>
      let buf := buf +:+ fieldEntry w evt field in
      let buf := match rest with [] => buf | _ => buf +:+ " " end in
      writeFieldEntries w evt rest buf
  end.

(** [writeFields] appends formatted key-value pairs to [buf]. *)
Definition writeFields (w : CodecometWriter) (evt : gmap string Value)
    (buf : string) : string :=
  let fields := sortStrings (collectFields w (map_to_list evt).*1) in
  let buf :=
    if (0 <? String.length buf)%nat && (0 <? length fields)%nat
    then buf +:+ "  " else buf in
  let fields := moveErrorToFront fields in
  writeFieldEntries w evt fields buf.

(** *** Write *)

(** [bytes.Buffer.WriteTo]: one call of the sink's [Write] on a buffer
    that is not empty; a count above the length panics, a count below it
    without an error is [io.ErrShortWrite]. *)
Definition ErrShortWrite : error := "short write".

Definition WriteTo {S : Type} `{ioWriter S} (buf : string) (out : S)
    : Outcome (S * option error) :=
  if (0 <? String.length buf)%nat then
    let '(out', (m, e)) := ioWrite out buf in
    if len buf <? m then Panicked
    else
      match e with
      | Some e => Returned (out', Some e)
      | None =>
          if m =? len buf then Returned (out', None)
          else Returned (out', Some ErrShortWrite)
      end
  else Returned (out, None).

(** The block [if w.FormatExtra != nil] of [Write]: the buffer after the
    hook and the hook's error. *)
Definition runFormatExtra (w : CodecometWriter) (evt : gmap string Value)
    (buf : string) : string * option error :=
  match FormatExtra w with
  | None => (buf, None)
  | Some extra => extra evt buf
  end.

(** The order after [if w.PartsOrder == nil]. *)
Definition partsOrderOf (w : CodecometWriter) : list string :=
  match PartsOrder w with
  | None => consoleDefaultPartsOrder
  | Some order => order
  end.

(** [Write] transforms the JSON input with formatters and appends to
    [w.Out]. The buffer taken from the pool is empty. *)
Definition Write {S : Type} `{ioWriter S} (w : CodecometWriter) (out : S)
    (p : string) : Outcome (S * (Z * option error)) :=
  let partsOrder := partsOrderOf w in
  match jsonDecode p with
  | inl err => Returned (out, (0, Some ("cannot decode event: " +:+ err)))
  | inr evt =>
      match writeParts w evt partsOrder "" with
      | None => Panicked
      | Some buf =>
          let buf := writeFields w evt buf in
          let '(buf, err) := runFormatExtra w evt buf in
          match err with
          | Some err => Returned (out, (0, Some err))
          | None =>
              let buf := buf +:+ nl in
              match WriteTo buf out with
              | Panicked => Panicked
              | Returned (out', err) => Returned (out', (len p, err))
              end
          end
      end
  end.

End Fields.

(** ** Vocabulary of the properties *)

(** A format without a percent sign before its verb [%v]. *)
Definition noPercent (s : string) : bool :=
  forallb (fun c => negb (Ascii.eqb c "%")) (bytes s).

(** The candidates of a record, sorted: the list on which [writeFields]
    decides the separator and moves "error". *)
Definition sortedCandidates (w : CodecometWriter) (evt : gmap string Value)
    : list string :=
  sortStrings (collectFields w (map_to_list evt).*1).

(** The two spaces between the part block and the field block. *)
Definition blockSeparator (w : CodecometWriter) (evt : gmap string Value)
    (buf : string) : string :=
  if (0 <? String.length buf)%nat && (0 <? length (sortedCandidates w evt))%nat
  then "  " else "".

(** Whether the level of the record can be formatted: an override is
    set, the value is a string or nil, or its text has three bytes. *)
Definition levelFormats {rt : Runtime} (w : CodecometWriter)
    (evt : gmap string Value) : bool :=
  match FormatLevel w with
  | Some _ => true
  | None =>
      match valueAt evt LevelFieldName with
      | VString _ | VNil => true
      | v => (3 <=? String.length (ToUpper (Sprintf_s v)))%nat
      end
  end.

(** The names that are neither "error" nor empty. *)
Definition notErrorNorEmpty (field : string) : bool :=
  negb (String.eqb field ErrorFieldName) && negb (String.eqb field "").


(** ** A runtime and two sinks for the examples

    The examples below run [Write] on concrete inputs. They fix what the
    libraries answer on those inputs: the decoder is given by the table of
    the JSON texts used, the marshal hook refuses every value, and the
    other fields are not reached. The table follows [Decoder.Decode]: a
    [null] leaves the nil map and is no error, and the bytes after the
    first value are not read. *)

Definition quoted (s : string) : string :=
  String DQUOTE s +:+ String DQUOTE "".

(** The record [{a:"2", b:"1"}]. *)
Definition evtAB : gmap string Value :=
  {[ "a" := VString "2"; "b" := VString "1" ]}.

(** The JSON texts of the examples. *)
Definition textAB : string :=
  "{" +:+ quoted "a" +:+ ":" +:+ quoted "2" +:+ ","
      +:+ quoted "b" +:+ ":" +:+ quoted "1" +:+ "}".
Definition textEmptyName : string :=
  "{" +:+ quoted "" +:+ ":" +:+ quoted "x" +:+ "}".
Definition textEmptyNameError : string :=
  "{" +:+ quoted "" +:+ ":" +:+ quoted "x" +:+ ","
      +:+ quoted "error" +:+ ":" +:+ quoted "boom" +:+ "}".
Definition textNumber : string := "{" +:+ quoted "n" +:+ ":123456789012345678}".
Definition textBool : string := "{" +:+ quoted "k" +:+ ":true}".
Definition textMessage : string :=
  "{" +:+ quoted "message" +:+ ":" +:+ quoted "hi\n" +:+ "}".
Definition textMode : string :=
  "{" +:+ quoted "mode" +:+ ":" +:+ quoted "dev" +:+ "}".
Definition textLevel : string := "{" +:+ quoted "level" +:+ ":1}".
Definition textNull : string := "null".
Definition textTrailing : string := "{}x".
Definition textEmptyNameNumber : string :=
  "{" +:+ quoted "" +:+ ":123456789012345678}".
Definition textEmptyNameNumberError : string :=
  "{" +:+ quoted "" +:+ ":123456789012345678,"
      +:+ quoted "error" +:+ ":" +:+ quoted "boom" +:+ "}".
Definition textEmptyNameBool : string := "{" +:+ quoted "" +:+ ":true}".
Definition textEmptyNameBoolError : string :=
  "{" +:+ quoted "" +:+ ":true,"
      +:+ quoted "error" +:+ ":" +:+ quoted "boom" +:+ "}".

Definition exampleEvents : list (string * (error + gmap string Value)) :=
  [ ("", inl "EOF");
    ("123",
     inl "json: cannot unmarshal number into Go value of type map[string]interface {}");
    ("{}", inr ∅);
    (textAB, inr evtAB);
    (textEmptyNameError,
     inr {[ "" := VString "x"; "error" := VString "boom" ]});
    (textEmptyName, inr {[ "" := VString "x" ]});
    (textNumber, inr {[ "n" := VNumber "123456789012345678" ]});
    (textBool, inr {[ "k" := VBool true ]});
    (textMessage, inr {[ "message" := VString ("hi" +:+ nl) ]});
    (textMode, inr {[ "mode" := VString "dev" ]});
    (textLevel, inr {[ "level" := VNumber "1" ]});
    (textNull, inr ∅);
    (textTrailing, inr ∅);
    (textEmptyNameNumber, inr {[ "" := VNumber "123456789012345678" ]});
    (textEmptyNameNumberError,
     inr {[ "" := VNumber "123456789012345678"; "error" := VString "boom" ]});
    (textEmptyNameBool, inr {[ "" := VBool true ]});
    (textEmptyNameBoolError,
     inr {[ "" := VBool true; "error" := VString "boom" ]}) ].

Fixpoint lookupEvent (p : string)
    (table : list (string * (error + gmap string Value)))
    : error + gmap string Value :=
  match table with
  | [] => inl "input outside the table"
  | (text, result) :: rest =>
      if String.eqb p text then result else lookupEvent p rest
  end.

#[local] Instance exampleRuntime : Runtime := {|
  jsonDecode := fun p => lookupEvent p exampleEvents;
  InterfaceMarshalFunc := fun _ => inl "unsupported value";
  Quote := quoted;
  fmtReflect := fun _ _ => "";
  unicodeToUpper := fun s => s;
  time_Time := Z * Z;
  TimeFieldFormat := "";
  ParseInLocation := fun _ _ => None;
  time_Local := fun t => t;
  time_Unix := fun sec nsec => (sec, nsec);
  time_Format := fun _ layout => layout
|}.

(** A sink that keeps what it is given. *)
#[local] Instance memorySink : ioWriter string :=
  fun out b => (out +:+ b, (len b, None)).

(** A sink that is closed. *)
Inductive closedFile : Type := ClosedFile.

#[local] Instance closedSink : ioWriter closedFile :=
  fun out _ => (out, (0, Some "file already closed")).

(** The zero value of [CodecometWriter] with a given [NoColor],
    [PartsOrder] and [FormatExtra]. *)
Definition writerWith (noColor : bool) (order : option (list string))
    (extra : option (gmap string Value -> string -> string * option error))
    : CodecometWriter := {|
  NoColor := noColor;
  TimeFormat := "";
  PartsOrder := order;
  PartsExclude := [];
  FieldsExclude := [];
  FormatTimestamp := None;
  FormatLevel := None;
  FormatMessage := None;
  FormatContext := None;
  FormatMode := None;
  FormatFieldName := None;
  FormatFieldValue := None;
  FormatErrFieldName := None;
  FormatErrFieldValue := None;
  FormatExtra := extra
|}.

(** A hook that writes a part of its output and fails. *)
Definition failingExtra (evt : gmap string Value) (buf : string)
    : string * option error :=
  (buf +:+ "goroutine 1", Some "stack unavailable").

(** Whether a string holds the byte 0x1b. *)
Definition hasEscape (s : string) : bool :=
  existsb (Ascii.eqb ESC) (bytes s).


(** ** The rest of the writer *)

(** [NewCodecometWriter] creates and initializes a new [CodecometWriter]:
    the defaults, then the options in their order. An option is a
    function on the writer; the one that sets [Out] chooses the sink that
    is passed to [Write]. *)
Definition NewCodecometWriter
    (options : list (CodecometWriter -> CodecometWriter)) : CodecometWriter :=
  fold_left (fun w opt => opt w) options
    {| NoColor := false;
       TimeFormat := consoleDefaultTimeFormat;
       PartsOrder := Some consoleDefaultPartsOrder;
       PartsExclude := [];
       FieldsExclude := [];
       FormatTimestamp := None;
       FormatLevel := None;
       FormatMessage := None;
       FormatContext := None;
       FormatMode := None;
       FormatFieldName := None;
       FormatFieldValue := None;
       FormatErrFieldName := None;
       FormatErrFieldValue := None;
       FormatExtra := None |}.

(** The writer [output] that [Init] of log.go installs:
    [CodecometWriter{Out: os.Stderr, TimeFormat: zerolog.TimeFormatUnix}]. *)
Definition InitOutput : CodecometWriter :=
  {| NoColor := false;
     TimeFormat := TimeFormatUnix;
     PartsOrder := None;
     PartsExclude := [];
     FieldsExclude := [];
     FormatTimestamp := None;
     FormatLevel := None;
     FormatMessage := None;
     FormatContext := None;
     FormatMode := None;
     FormatFieldName := None;
     FormatFieldValue := None;
     FormatErrFieldName := None;
     FormatErrFieldValue := None;
     FormatExtra := None |}.

(** [needsQuote] as the source writes it: [for i := range s] visits the
    first byte of every rune, and [skip] counts the bytes of the current
    rune that are still to pass. *)
Fixpoint needsQuoteFrom (skip : nat) (l : list ascii) : bool :=
  match l with
  | [] => false
  | c :: rest =>
      match skip with
      | S k => needsQuoteFrom k rest
      | O => quoteByte c || needsQuoteFrom (pred (runeSize c rest)) rest
      end
  end.

Definition needsQuoteRange (s : string) : bool := needsQuoteFrom 0 (bytes s).

(** A byte that stands in a value written without quotes: printable
    ASCII other than the space, the backslash and the double quote. *)
Definition plainByte (c : ascii) : bool :=
  (33 <=? byteOf c) && (byteOf c <=? 126)
  && negb (Ascii.eqb c BACKSLASH) && negb (Ascii.eqb c DQUOTE).

(** The loop [for _, exclude := range w.PartsExclude] of [writePart]. *)
Definition isPartExcluded (w : CodecometWriter) (p : string) : bool :=
  existsb (fun exclude => String.eqb exclude p) (PartsExclude w).

Definition nonEmpty (s : string) : bool := (0 <? String.length s)%nat.

(** The text that a part contributes: nothing for an excluded part. *)
Definition partText {rt : Runtime} (w : CodecometWriter)
    (evt : gmap string Value) (p : string) : string :=
  if isPartExcluded w p then ""
  else default "" (partFormatter w p (valueAt evt p)).

(** The writer with the fallbacks of [Write] and of the timestamp
    formatter written into its fields. *)
Definition withDefaults (w : CodecometWriter) : CodecometWriter :=
  {| NoColor := NoColor w;
     TimeFormat :=
       if String.eqb (TimeFormat w) "" then consoleDefaultTimeFormat
       else TimeFormat w;
     PartsOrder := Some (partsOrderOf w);
     PartsExclude := PartsExclude w;
     FieldsExclude := FieldsExclude w;
     FormatTimestamp := FormatTimestamp w;
     FormatLevel := FormatLevel w;
     FormatMessage := FormatMessage w;
     FormatContext := FormatContext w;
     FormatMode := FormatMode w;
     FormatFieldName := FormatFieldName w;
     FormatFieldValue := FormatFieldValue w;
     FormatErrFieldName := FormatErrFieldName w;
     FormatErrFieldValue := FormatErrFieldValue w;
     FormatExtra := FormatExtra w |}.

(** The text of the value of a field before the value formatter: the
    string or its quoted form, the token of a number, the marshalled
    bytes or the diagnostic of the marshal hook. *)
Definition valueText {rt : Runtime} (evt : gmap string Value)
    (field : string) : string :=
  match valueAt evt field with
  | VString s => if needsQuote s then Quote s else s
  | VNumber tok => tok
  | v =>
      match InterfaceMarshalFunc v with
      | inl err => "[error: " +:+ err +:+ "]"
      | inr b => b
      end
  end.

(** A sink that takes no byte and reports no error. *)
Inductive stalledPipe : Type := StalledPipe.

#[local] Instance stalledSink : ioWriter stalledPipe :=
  fun out _ => (out, (0, None)).

(** A key that [writeFields] skips. *)
Definition notCandidate (w : CodecometWriter) (k : string) : bool :=
  isExcluded w k || isReserved k.

(** * Properties *)

(** ** Strings *)

Lemma app_nil_l (s : string) : "" +:+ s = s.
Proof. reflexivity. Qed.

Lemma app_cons (c : ascii) (s t : string) :
  String c s +:+ t = String c (s +:+ t).
Proof. reflexivity. Qed.

Lemma app_nil_r (s : string) : s +:+ "" = s.
Proof.
  induction s as [|c s IH]; [reflexivity|].
  rewrite app_cons, IH. reflexivity.
Qed.

Lemma app_assoc (s t u : string) : (s +:+ t) +:+ u = s +:+ (t +:+ u).
Proof.
  induction s as [|c s IH]; [reflexivity|].
  rewrite !app_cons, IH. reflexivity.
Qed.

Lemma length_app (s t : string) :
  String.length (s +:+ t) = (String.length s + String.length t)%nat.
Proof.
  induction s as [|c s IH]; [reflexivity|].
  rewrite app_cons. simpl. rewrite IH. reflexivity.
Qed.

Lemma len_app (s t : string) : len (s +:+ t) = len s + len t.
Proof. unfold len. rewrite length_app. lia. Qed.

(** Appends are put in the right-nested form of [+:+]. *)
Create Rewrite HintDb strings.
#[local] Hint Rewrite app_nil_r app_assoc : strings.

Lemma length_app_nl (s : string) : (0 <? String.length (s +:+ nl))%nat = true.
Proof. rewrite length_app. apply Nat.ltb_lt. simpl. lia. Qed.

(** ** colorize *)

Lemma colorize_disabled (s : string) (c : Z) : colorize s c true = s.
Proof. reflexivity. Qed.

Lemma colorize_enabled (s : string) (c : Z) :
  colorize s c false = esc +:+ "[" +:+ itoa c +:+ "m" +:+ s +:+ esc +:+ "[0m".
Proof. reflexivity. Qed.

Lemma Sprintf_v_other (c : ascii) (r msg : string) :
  Ascii.eqb c "%" = false ->
  Sprintf_v (String c r) msg = String c (Sprintf_v r msg).
Proof.
  intros Hc. destruct r as [|c' r']; [reflexivity|].
  change (Sprintf_v (String c (String c' r')) msg)
    with (match String c' r' with
          | String "v" r'' =>
              if Ascii.eqb c "%" then msg +:+ r''
              else String c (Sprintf_v (String c' r') msg)
          | _ => String c (Sprintf_v (String c' r') msg)
          end).
  rewrite Hc.
  destruct c' as [[] [] [] [] [] [] [] []]; reflexivity.
Qed.

Lemma Sprintf_v_verb (pre suf msg : string) :
  noPercent pre = true ->
  Sprintf_v (pre +:+ "%v" +:+ suf) msg = pre +:+ msg +:+ suf.
Proof.
  unfold noPercent, bytes.
  induction pre as [|c pre IH]; intros Hpre.
  - reflexivity.
  - simpl in Hpre. apply andb_true_iff in Hpre as [Hc Hpre].
    apply negb_true_iff in Hc.
    rewrite (app_cons c pre ("%v" +:+ suf)), (app_cons c pre (msg +:+ suf)).
    rewrite (Sprintf_v_other _ _ _ Hc), (IH Hpre).
    reflexivity.
Qed.

(** The diagnostic of a marshal failure: the message inside the brackets,
    in red unless colors are disabled. *)
Lemma Sprintf_v_diagnostic (cause : string) (noColor : bool) :
  Sprintf_v (colorize "[error: %v]" colorRed noColor) cause
  = colorize ("[error: " +:+ cause +:+ "]") colorRed noColor.
Proof.
  destruct noColor.
  - rewrite !colorize_disabled.
    apply (Sprintf_v_verb "[error: " "]"). reflexivity.
  - rewrite !colorize_enabled.
    change (itoa colorRed) with "31".
    rewrite !app_assoc.
    apply (Sprintf_v_verb (esc +:+ "[31m[error: ") ("]" +:+ esc +:+ "[0m")).
    reflexivity.
Qed.

(** ** The parts *)

Section Parts.
Context {rt : Runtime}.

(** The parts are written, without a panic, whenever the level can be
    formatted: the other formatters are total. *)
Lemma writePart_returns (w : CodecometWriter) (evt : gmap string Value)
    (p buf : string) :
  levelFormats w evt = true -> exists buf', writePart w buf evt p = Some buf'.
Proof.
  unfold levelFormats, writePart, partFormatter. intros Hl.
  destruct (existsb _ (PartsExclude w)); [eauto|].
  destruct (String.eqb_spec p LevelFieldName) as [->|_].
  - unfold orDefault. destruct (FormatLevel w); [eexists; reflexivity|].
    unfold consoleDefaultFormatLevel.
    destruct (valueAt evt LevelFieldName); cbv zeta; try rewrite Hl;
      eexists; reflexivity.
  - repeat match goal with
           | |- context [if String.eqb p ?x then _ else _] =>
               destruct (String.eqb p x)
           end;
      unfold orDefault, total;
      destruct (FormatTimestamp w), (FormatMessage w), (FormatContext w),
        (FormatMode w), (FormatFieldValue w); eexists; reflexivity.
Qed.

Lemma writeParts_returns (w : CodecometWriter) (evt : gmap string Value)
    (parts : list string) (buf : string) :
  levelFormats w evt = true -> exists buf', writeParts w evt parts buf = Some buf'.
Proof.
  intros Hl. revert buf. induction parts as [|p rest IH]; intros buf; simpl.
  - eauto.
  - destruct (writePart_returns w evt p buf Hl) as [buf' ->]. apply IH.
Qed.

End Parts.

(** A level that is the number 1: the slice of three bytes of the default
    formatter is out of range and [Write] panics. *)
Example Write_level_number_panics :
  Write (writerWith true None None) "" textLevel = Panicked.
Proof. vm_compute. reflexivity. Qed.

(** ** The order in which the map yields its keys *)

(** Go does not fix the order of [range] on a map. The fields are sorted
    right after they are collected, so any order of the keys gives the
    same list. *)
Lemma sortStrings_Permutation (keys keys' : list string) :
  keys ≡ₚ keys' -> sortStrings keys = sortStrings keys'.
Proof.
  intros Hp. unfold sortStrings.
  apply (StronglySorted_unique String.le);
    try (apply StronglySorted_merge_sort; apply _).
  rewrite !merge_sort_Permutation. exact Hp.
Qed.

Lemma collectFields_Permutation (w : CodecometWriter) (keys keys' : list string) :
  keys ≡ₚ keys' ->
  sortStrings (collectFields w keys) = sortStrings (collectFields w keys').
Proof.
  intros Hp. apply sortStrings_Permutation. unfold collectFields.
  induction Hp as [|x l l' Hp IH|x y l|l l' l'' _ IH1 _ IH2]; simpl.
  - reflexivity.
  - destruct (negb (isExcluded w x) && negb (isReserved x));
      [constructor|]; exact IH.
  - destruct (negb (isExcluded w x) && negb (isReserved x)),
             (negb (isExcluded w y) && negb (isReserved y));
      try reflexivity. apply perm_swap.
  - etrans; eassumption.
Qed.

(** ** Write: the returned count, the error paths, the terminator *)

(** [Write] is run along the results of the calls that the hypotheses
    give. *)
Ltac run_Write :=
  unfold Write, runFormatExtra;
  repeat match goal with
         | H : ?call = _ |- context [?call] => rewrite H
         end;
  try reflexivity.

Section WriteResults.
Context {rt : Runtime} {S : Type} {sink : ioWriter S}.

(** The tail of [Write] once the line is complete: the flush and the
    count [len(p)]. *)
Lemma Write_flush (w : CodecometWriter) (out : S) (p : string)
    (evt : gmap string Value) (buf body : string) :
  jsonDecode p = inr evt ->
  writeParts w evt (partsOrderOf w) "" = Some buf ->
  runFormatExtra w evt (writeFields w evt buf) = (body, None) ->
  Write w out p =
    match WriteTo (body +:+ nl) out with
    | Panicked => Panicked
    | Returned (out', err) => Returned (out', (len p, err))
    end.
Proof.
  intros Hdec Hparts Hextra. unfold Write.
  rewrite Hdec, Hparts, Hextra. reflexivity.
Qed.

(** C4, as amended. When the decoder rejects the input, [Write] returns
    the count zero and the decode error, and the sink is in the state it
    was in: nothing was written to it. *)
Theorem Write_decode_error (w : CodecometWriter) (out : S) (p : string)
    (e : error) :
  jsonDecode p = inl e ->
  Write w out p = Returned (out, (0, Some ("cannot decode event: " +:+ e))).
Proof.
  intros Hdec. run_Write.
Qed.

(** C5. When the configured hook returns an error, [Write] returns that
    error with the count zero; the terminator is not appended and the
    sink is not called: its state is unchanged. *)
Theorem Write_extra_error (w : CodecometWriter) (out : S) (p : string)
    (evt : gmap string Value) (buf buf' : string)
    (extra : gmap string Value -> string -> string * option error)
    (e : error) :
  jsonDecode p = inr evt ->
  writeParts w evt (partsOrderOf w) "" = Some buf ->
  FormatExtra w = Some extra ->
  extra evt (writeFields w evt buf) = (buf', Some e) ->
  Write w out p = Returned (out, (0, Some e)).
Proof.
  intros Hdec Hparts Hextra He. run_Write.
Qed.

(** C9, as amended. On every successful [Write] the sink was handed, in
    one call that it accepted in full, the rendered line followed by the
    one line feed that [Write] appends; the line is the buffer as the
    parts, the fields and the hook left it, whatever its last byte. *)
Theorem Write_success_line (w : CodecometWriter) (out out' : S) (p : string)
    (n : Z) :
  Write w out p = Returned (out', (n, None)) ->
  exists (evt : gmap string Value) (buf body : string),
    jsonDecode p = inr evt /\
    writeParts w evt (partsOrderOf w) "" = Some buf /\
    runFormatExtra w evt (writeFields w evt buf) = (body, None) /\
    ioWrite out (body +:+ nl) = (out', (len (body +:+ nl), None)).
Proof.
  unfold Write. intros HW.
  destruct (jsonDecode p) as [e|evt] eqn:Hdec; [discriminate|].
  destruct (writeParts w evt (partsOrderOf w) "") as [buf|] eqn:Hparts;
    [|discriminate].
  destruct (runFormatExtra w evt (writeFields w evt buf)) as [body err]
    eqn:Hextra.
  destruct err as [err|]; [discriminate|].
  exists evt, buf, body.
  split; [reflexivity|]. split; [exact Hparts|]. split; [exact Hextra|].
  unfold WriteTo in HW. rewrite length_app_nl in HW.
  destruct (ioWrite out (body +:+ nl)) as [o [m e]] eqn:Hio.
  destruct (len (body +:+ nl) <? m); [discriminate|].
  destruct e as [e|]; [discriminate|].
  destruct (m =? len (body +:+ nl)) eqn:Hm; [|discriminate].
  apply Z.eqb_eq in Hm. subst m. congruence.
Qed.

(** C10. The count that [Write] returns is [len(p)] once decoding and
    the configured hook, if any, have succeeded, whether the sink accepts
    the line, fails, or takes a part of it; it is zero when decoding
    fails or the configured hook returns an error. It is never computed
    from the rendered line. *)
Theorem Write_count (w : CodecometWriter) (out : S) (p : string) :
  (forall e, jsonDecode p = inl e ->
     exists err, Write w out p = Returned (out, (0, Some err))) /\
  (forall evt buf,
     jsonDecode p = inr evt ->
     writeParts w evt (partsOrderOf w) "" = Some buf ->
     (forall extra buf' e,
        FormatExtra w = Some extra ->
        extra evt (writeFields w evt buf) = (buf', Some e) ->
        Write w out p = Returned (out, (0, Some e))) /\
     (forall body out' m e,
        (FormatExtra w = None /\ body = writeFields w evt buf)
        \/ (exists extra,
              FormatExtra w = Some extra
              /\ extra evt (writeFields w evt buf) = (body, None)) ->
        ioWrite out (body +:+ nl) = (out', (m, e)) ->
        m <= len (body +:+ nl) ->
        exists err, Write w out p = Returned (out', (len p, err)) /\
          (forall e', e = Some e' -> err = Some e') /\
          (e = None -> m = len (body +:+ nl) -> err = None))).
Proof.
  split.
  - intros e Hdec. eexists. run_Write.
  - intros evt buf Hdec Hparts. split.
    + intros extra buf' e Hextra He. unfold Write, runFormatExtra.
      rewrite Hdec, Hparts, Hextra, He. reflexivity.
    + intros body out' m e Hhook Hio Hm.
      assert (Hextra : runFormatExtra w evt (writeFields w evt buf)
                       = (body, None)).
      { unfold runFormatExtra.
        destruct Hhook as [[-> ->]|(extra & -> & ->)]; reflexivity. }
      rewrite (Write_flush w out p evt buf body Hdec Hparts Hextra).
      unfold WriteTo. rewrite length_app_nl, Hio.
      destruct (len (body +:+ nl) <? m) eqn:Hlt; [apply Z.ltb_lt in Hlt; lia|].
      destruct e as [e|].
      * eexists. split; [reflexivity|]. split; [congruence|discriminate].
      * destruct (m =? len (body +:+ nl)) eqn:Heq.
        -- eexists. split; [reflexivity|]. split; [discriminate|reflexivity].
        -- eexists. split; [reflexivity|]. split; [discriminate|].
           intros _ Hm'. apply Z.eqb_neq in Heq. contradiction.
Qed.

End WriteResults.

(** ** writeFields: the shape of the field block *)

Section FieldBlock.
Context {rt : Runtime}.

(** The last loop writes the entries with one space between two of them
    and none after the last. *)
Lemma writeFieldEntries_concat (w : CodecometWriter)
    (evt : gmap string Value) (fields : list string) (buf : string) :
  writeFieldEntries w evt fields buf
  = buf +:+ String.concat " " (map (fieldEntry w evt) fields).
Proof.
  revert buf. induction fields as [|field rest IH]; intros buf.
  - simpl. rewrite app_nil_r. reflexivity.
  - destruct rest as [|field' rest'].
    + reflexivity.
    + change (writeFieldEntries w evt (field :: field' :: rest') buf)
        with (writeFieldEntries w evt (field' :: rest')
                ((buf +:+ fieldEntry w evt field) +:+ " ")).
      rewrite IH.
      change (String.concat " " (map (fieldEntry w evt) (field :: field' :: rest')))
        with (fieldEntry w evt field +:+ " " +:+
              String.concat " " (map (fieldEntry w evt) (field' :: rest'))).
      rewrite !app_assoc. reflexivity.
Qed.

Lemma writeFields_concat (w : CodecometWriter) (evt : gmap string Value)
    (buf : string) :
  writeFields w evt buf
  = buf +:+ blockSeparator w evt buf +:+
    String.concat " " (map (fieldEntry w evt) (fieldOrder w evt)).
Proof.
  unfold writeFields, blockSeparator, fieldOrder, sortedCandidates.
  rewrite writeFieldEntries_concat.
  destruct ((0 <? String.length buf)%nat &&
            (0 <? length (sortStrings (collectFields w (map_to_list evt).*1)))%nat).
  - rewrite app_assoc. reflexivity.
  - reflexivity.
Qed.

(** An entry of the block, with what stands before and after it. *)
Lemma concat_entry (g : string -> string) (sep : string) (fields : list string)
    (field : string) :
  field ∈ fields ->
  exists pre post, String.concat sep (map g fields) = pre +:+ g field +:+ post.
Proof.
  induction fields as [|x rest IH]; intros Hin.
  - inversion Hin.
  - apply elem_of_cons in Hin as [->|Hin].
    + destruct rest as [|y rest'].
      * exists "", "". simpl. rewrite app_nil_r. reflexivity.
      * exists "", (sep +:+ String.concat sep (map g (y :: rest'))).
        reflexivity.
    + destruct (IH Hin) as (pre & post & E).
      destruct rest as [|y rest']; [inversion Hin|].
      exists (g x +:+ sep +:+ pre), post.
      change (String.concat sep (map g (x :: y :: rest')))
        with (g x +:+ sep +:+ String.concat sep (map g (y :: rest'))).
      rewrite E. autorewrite with strings. reflexivity.
Qed.

End FieldBlock.

(** ** sort.Search on a sorted list *)

(** [Search] on a predicate that, once true, stays true up to [n]: the
    result is the least index at which it is true, or [n]. *)
Lemma searchLoop_least (f : nat -> bool) (n i j : nat) :
  (forall k k', (k <= k')%nat -> (k' < n)%nat -> f k = true -> f k' = true) ->
  (i <= j)%nat -> (j <= n)%nat ->
  (forall k, (k < i)%nat -> f k = false) ->
  (forall k, (j <= k)%nat -> (k < n)%nat -> f k = true) ->
  (i <= searchLoop f i j)%nat /\ (searchLoop f i j <= j)%nat /\
  (forall k, (k < searchLoop f i j)%nat -> f k = false) /\
  (forall k, (searchLoop f i j <= k)%nat -> (k < n)%nat -> f k = true).
Proof.
  funelim (searchLoop f i j); intros Hmono Hij Hjn Hlo Hhi;
    try (pose proof (Nat.div_mod_eq (i + j) 2) as E;
         pose proof (Nat.mod_upper_bound (i + j) 2 ltac:(lia)) as U).
  - (* the loop ends: i = j *)
    assert (i = j) as -> by lia.
    repeat split; try lia; assumption.
  - (* f h = true: the search goes on in [i, h) *)
    match goal with
    | IH : forall n, _ -> _ -> _ -> _ -> _ -> _ |- _ =>
        destruct (IH n Hmono) as (H1 & H2 & H3 & H4)
    end; try lia; try assumption.
    + intros k Hk Hkn.
      apply (Hmono ((i + j) / 2)%nat k); [lia|lia|assumption].
    + repeat split; try lia; assumption.
  - (* f h = false: the search goes on in [h+1, j) *)
    match goal with
    | IH : forall n, _ -> _ -> _ -> _ -> _ -> _ |- _ =>
        destruct (IH n Hmono) as (H1 & H2 & H3 & H4)
    end; try lia; try assumption.
    + intros k Hk.
      destruct (f k) eqn:Hfk; [|reflexivity].
      assert (f ((i + j) / 2)%nat = true) as Hh
        by (apply (Hmono k); [lia|lia|exact Hfk]).
      congruence.
    + repeat split; try lia; assumption.
Qed.

Lemma StronglySorted_lookup_le (l : list string) (k k' : nat) (a b : string) :
  StronglySorted String.le l ->
  (k <= k')%nat -> l !! k = Some a -> l !! k' = Some b -> String.le a b.
Proof.
  intros Hs. revert k k'. induction Hs as [|x l Hs IH Hall]; intros k k' Hk Ha Hb.
  - rewrite lookup_nil in Ha. discriminate.
  - destruct k as [|k], k' as [|k']; simpl in Ha, Hb; try lia.
    + injection Ha as <-. injection Hb as <-. reflexivity.
    + injection Ha as <-. rewrite Forall_forall in Hall.
      apply Hall. apply list_elem_of_lookup. eauto.
    + apply (IH k k'); [lia|assumption|assumption].
Qed.

(** ** Moving "error" to the front *)

Lemma at_lookup (fields : list string) (i : nat) (x : string) :
  fields !! i = Some x -> at_ fields i = x.
Proof. intros H. unfold at_. apply list_lookup_total_correct, H. Qed.

Lemma lookup_at (fields : list string) (i : nat) :
  (i < length fields)%nat -> fields !! i = Some (at_ fields i).
Proof. intros H. unfold at_. apply list_lookup_lookup_total_lt, H. Qed.

(** Without "error" among the fields the list is left as it is. *)
Lemma moveErrorToFront_absent (fields : list string) :
  ErrorFieldName ∉ fields -> moveErrorToFront fields = fields.
Proof.
  intros Habs. unfold moveErrorToFront.
  set (ei := Search _ _).
  destruct ((ei <? length fields)%nat) eqn:Hlt; [|reflexivity].
  destruct (String.eqb (at_ fields ei) ErrorFieldName) eqn:Heq; [|reflexivity].
  exfalso. apply Habs.
  apply Nat.ltb_lt in Hlt. apply String.eqb_eq in Heq.
  apply list_elem_of_lookup. exists ei. rewrite <- Heq. apply lookup_at, Hlt.
Qed.

(** On a sorted list that holds "error", [Search] finds its index. *)
Lemma Search_error_index (fields : list string) :
  StronglySorted String.le fields ->
  ErrorFieldName ∈ fields ->
  let ei :=
    Search (length fields) (fun i => String.leb ErrorFieldName (at_ fields i)) in
  (ei < length fields)%nat /\ fields !! ei = Some ErrorFieldName.
Proof.
  intros Hs Hin ei.
  set (f := fun i => String.leb ErrorFieldName (at_ fields i)) in *.
  assert (Hmono : forall k k', (k <= k')%nat -> (k' < length fields)%nat ->
                    f k = true -> f k' = true).
  { intros k k' Hk Hk' Hf. unfold f in *.
    pose proof (lookup_at fields k ltac:(lia)) as Ha.
    pose proof (lookup_at fields k' Hk') as Hb.
    pose proof (StronglySorted_lookup_le _ _ _ _ _ Hs Hk Ha Hb) as Hle.
    apply Is_true_true. apply Is_true_true in Hf.
    change (String.le ErrorFieldName (at_ fields k')).
    etrans; [exact Hf|exact Hle]. }
  destruct (searchLoop_least f (length fields) 0 (length fields) Hmono)
    as (_ & Hle & Hlo & Hhi); try (intros; lia).
  fold (Search (length fields) f) in Hle, Hlo, Hhi. fold ei in Hle, Hlo, Hhi.
  apply list_elem_of_lookup in Hin as [m Hm].
  pose proof (lookup_lt_Some _ _ _ Hm) as Hmlen.
  assert (Hfm : f m = true).
  { unfold f. rewrite (at_lookup _ _ _ Hm).
    apply Is_true_true. change (String.le ErrorFieldName ErrorFieldName).
    reflexivity. }
  assert (Hem : (ei <= m)%nat).
  { destruct (le_lt_dec ei m) as [|Hlt]; [assumption|].
    rewrite (Hlo m Hlt) in Hfm. discriminate. }
  split; [lia|].
  pose proof (lookup_at fields ei ltac:(lia)) as Hei.
  rewrite Hei. f_equal.
  apply (anti_symm String.le).
  - exact (StronglySorted_lookup_le _ _ _ _ _ Hs Hem Hei Hm).
  - apply Is_true_true. apply (Hhi ei); lia.
Qed.

(** What the code does on a sorted list of distinct names that holds
    "error": "error" comes first, the other names keep their order, and a
    field whose name is empty is dropped with the blanked entry. *)
Lemma moveErrorToFront_present (fields : list string) :
  StronglySorted String.le fields -> NoDup fields ->
  ErrorFieldName ∈ fields ->
  moveErrorToFront fields = ErrorFieldName :: List.filter notErrorNorEmpty fields.
Proof.
  intros Hs Hnd Hin.
  destruct (Search_error_index fields Hs Hin) as [Hlt Hei].
  unfold moveErrorToFront.
  set (ei := Search _ _) in *.
  apply Nat.ltb_lt in Hlt as Hlt'. rewrite Hlt'.
  rewrite (at_lookup _ _ _ Hei), String.eqb_refl. simpl.
  f_equal.
  rewrite insert_take_drop by exact Hlt.
  rewrite <- (take_drop_middle fields ei ErrorFieldName Hei) at 3.
  rewrite <- (take_drop_middle fields ei ErrorFieldName Hei) in Hnd.
  apply NoDup_app in Hnd as (_ & Hpre & Hpost).
  apply NoDup_cons in Hpost as [Hpost _].
  unfold skipEmpty. rewrite !List.filter_app. simpl.
  f_equal; apply List.filter_ext_in; intros x Hx; apply list_elem_of_In in Hx;
    unfold notErrorNorEmpty.
  - destruct (String.eqb_spec x ErrorFieldName) as [->|]; [|reflexivity].
    exfalso. apply (Hpre ErrorFieldName Hx). left.
  - destruct (String.eqb_spec x ErrorFieldName) as [->|]; [|reflexivity].
    contradiction.
Qed.

(** A named field is still there after the move. *)
Lemma moveErrorToFront_elem (fields : list string) (field : string) :
  field <> "" -> field ∈ fields -> field ∈ moveErrorToFront fields.
Proof.
  intros Hne Hin. unfold moveErrorToFront.
  set (ei := Search _ _).
  destruct ((ei <? length fields)%nat) eqn:Hlt; [|exact Hin].
  destruct (String.eqb (at_ fields ei) ErrorFieldName) eqn:Heq; [|exact Hin].
  simpl. apply Nat.ltb_lt in Hlt.
  destruct (String.eqb_spec field ErrorFieldName) as [->|Hfe]; [left|].
  right. unfold skipEmpty. apply list_elem_of_In, List.filter_In. split.
  - apply list_elem_of_In.
    apply list_elem_of_lookup in Hin as [k Hk].
    apply list_elem_of_lookup. exists k.
    rewrite list_lookup_insert_ne; [exact Hk|].
    intros <-. apply String.eqb_eq in Heq.
    rewrite (at_lookup _ _ _ Hk) in Heq. contradiction.
  - apply negb_true_iff, String.eqb_neq, Hne.
Qed.

(** ** The order of the fields *)

Lemma sortedCandidates_sorted (w : CodecometWriter) (evt : gmap string Value) :
  StronglySorted String.le (sortedCandidates w evt).
Proof. apply StronglySorted_merge_sort; apply _. Qed.

Lemma collectFields_NoDup (w : CodecometWriter) (keys : list string) :
  NoDup keys -> NoDup (collectFields w keys).
Proof.
  unfold collectFields. induction 1 as [|x l Hx Hnd IH]; simpl.
  - constructor.
  - destruct (negb (isExcluded w x) && negb (isReserved x)); [|exact IH].
    constructor; [|exact IH].
    intros Hin. apply Hx.
    apply list_elem_of_In, List.filter_In in Hin as [Hin _].
    apply list_elem_of_In, Hin.
Qed.

Lemma sortedCandidates_NoDup (w : CodecometWriter) (evt : gmap string Value) :
  NoDup (sortedCandidates w evt).
Proof.
  unfold sortedCandidates, sortStrings.
  rewrite merge_sort_Permutation.
  apply collectFields_NoDup, NoDup_fst_map_to_list.
Qed.

(** The candidates are the keys of the record that are neither excluded
    nor reserved. *)
Lemma elem_of_sortedCandidates (w : CodecometWriter)
    (evt : gmap string Value) (field : string) :
  field ∈ sortedCandidates w evt <->
  is_Some (evt !! field) /\ isExcluded w field = false
  /\ isReserved field = false.
Proof.
  unfold sortedCandidates, sortStrings, collectFields.
  rewrite merge_sort_Permutation, list_elem_of_In, List.filter_In.
  rewrite <- list_elem_of_In, andb_true_iff, !negb_true_iff.
  split.
  - intros (Hin & He & Hr). split; [|tauto].
    apply list_elem_of_fmap in Hin as ([k v] & -> & Hkv).
    apply elem_of_map_to_list in Hkv. exists v. exact Hkv.
  - intros ([v Hv] & He & Hr). split; [|tauto].
    apply list_elem_of_fmap. exists (field, v). split; [reflexivity|].
    apply elem_of_map_to_list, Hv.
Qed.

Lemma fieldOrder_sortedCandidates (w : CodecometWriter)
    (evt : gmap string Value) :
  fieldOrder w evt = moveErrorToFront (sortedCandidates w evt).
Proof. reflexivity. Qed.

(** With "error" among the candidates the order is "error", then the
    other candidates in ascending order, less the field whose name is
    empty. *)
Lemma fieldOrder_error (w : CodecometWriter) (evt : gmap string Value) :
  ErrorFieldName ∈ sortedCandidates w evt ->
  fieldOrder w evt
  = ErrorFieldName :: List.filter notErrorNorEmpty (sortedCandidates w evt).
Proof.
  intros Hin. rewrite fieldOrder_sortedCandidates.
  apply moveErrorToFront_present;
    [apply sortedCandidates_sorted | apply sortedCandidates_NoDup | exact Hin].
Qed.

(** When no candidate has the empty name, "error" is moved and every
    other candidate is kept, in the sorted order. *)
Lemma fieldOrder_error_named (w : CodecometWriter) (evt : gmap string Value) :
  ErrorFieldName ∈ sortedCandidates w evt ->
  "" ∉ sortedCandidates w evt ->
  fieldOrder w evt
  = ErrorFieldName ::
    List.filter (fun field => negb (String.eqb field ErrorFieldName))
      (sortedCandidates w evt).
Proof.
  intros Hin Hemp. rewrite (fieldOrder_error w evt Hin). f_equal.
  apply List.filter_ext_in. intros x Hx. unfold notErrorNorEmpty.
  destruct (String.eqb_spec x "") as [->|]; [|apply andb_true_r].
  exfalso. apply Hemp, list_elem_of_In, Hx.
Qed.

(** Without "error" among the candidates the sorted order is the order. *)
Lemma fieldOrder_no_error (w : CodecometWriter) (evt : gmap string Value) :
  ErrorFieldName ∉ sortedCandidates w evt ->
  fieldOrder w evt = sortedCandidates w evt.
Proof.
  intros Habs. rewrite fieldOrder_sortedCandidates.
  apply moveErrorToFront_absent, Habs.
Qed.

(** The fields that are rendered: the candidates, less the one with the
    empty name when "error" is a candidate too. *)
Lemma elem_of_fieldOrder (w : CodecometWriter) (evt : gmap string Value)
    (field : string) :
  field ∈ fieldOrder w evt <->
  field ∈ sortedCandidates w evt
  /\ (field <> "" \/ ErrorFieldName ∉ sortedCandidates w evt).
Proof.
  destruct (decide (ErrorFieldName ∈ sortedCandidates w evt)) as [Herr|Herr].
  - rewrite (fieldOrder_error w evt Herr), elem_of_cons.
    rewrite list_elem_of_In, List.filter_In, <- list_elem_of_In.
    unfold notErrorNorEmpty.
    rewrite andb_true_iff, !negb_true_iff, !String.eqb_neq.
    split.
    + intros [->|(Hin & _ & Hne)]; (split; [assumption|]); left;
        [discriminate|exact Hne].
    + intros (Hin & [Hne|Habs]); [|contradiction].
      destruct (decide (field = ErrorFieldName)); [left|right]; tauto.
  - rewrite (fieldOrder_no_error w evt Herr). tauto.
Qed.

(** A candidate is rendered when its name is not empty or the record has
    no candidate "error". *)
Lemma candidate_rendered (w : CodecometWriter) (evt : gmap string Value)
    (field : string) (v : Value) :
  evt !! field = Some v ->
  isExcluded w field = false -> isReserved field = false ->
  field <> "" \/ ErrorFieldName ∉ sortedCandidates w evt ->
  field ∈ fieldOrder w evt.
Proof.
  intros Hv He Hr Hne. apply elem_of_fieldOrder. split; [|exact Hne].
  apply elem_of_sortedCandidates. eauto.
Qed.

(** ** The value of a field *)

Section FieldValues.
Context {rt : Runtime} {S : Type} {sink : ioWriter S}.

(** The marshal failure of a field that is written. A field whose value
    is neither a string nor a number and that the marshal hook refuses is
    rendered as its formatted name followed by the bracketed diagnostic
    [[error: cause]], in red unless colors are disabled. The failure stays
    inside that entry: the field block is made of the entries of all the
    fields in their order, and [Write] goes on to the hook, the terminator
    and the flush, and returns [len(p)] with no error when the sink
    accepts the line. *)
Theorem Write_marshal_error (w : CodecometWriter) (out : S) (p : string)
    (evt : gmap string Value) (buf : string) (field : string) (v : Value)
    (cause : error) :
  jsonDecode p = inr evt ->
  writeParts w evt (partsOrderOf w) "" = Some buf ->
  evt !! field = Some v ->
  isExcluded w field = false -> isReserved field = false ->
  field <> "" \/ ErrorFieldName ∉ sortedCandidates w evt ->
  (forall s, v <> VString s) -> (forall tok, v <> VNumber tok) ->
  InterfaceMarshalFunc v = inl cause ->
  fieldEntry w evt field
  = fieldNameFormatter w field (VString field) +:+
    colorize ("[error: " +:+ cause +:+ "]") colorRed (NoColor w)
  /\ field ∈ fieldOrder w evt
  /\ writeFields w evt buf
     = buf +:+ blockSeparator w evt buf +:+
       String.concat " " (map (fieldEntry w evt) (fieldOrder w evt))
  /\ (forall body out',
        runFormatExtra w evt (writeFields w evt buf) = (body, None) ->
        ioWrite out (body +:+ nl) = (out', (len (body +:+ nl), None)) ->
        Write w out p = Returned (out', (len p, None))).
Proof.
  intros Hdec Hparts Hv He Hr Hne Hstr Hnum Hm.
  split; [|split; [|split]].
  - unfold fieldEntry, valueAt. rewrite Hv. simpl.
    destruct v; try (rewrite Hm, Sprintf_v_diagnostic; reflexivity).
    + exfalso. apply (Hstr s). reflexivity.
    + exfalso. apply (Hnum tok). reflexivity.
  - apply (candidate_rendered w evt field v); assumption.
  - apply writeFields_concat.
  - intros body out' Hextra Hio.
    rewrite (Write_flush w out p evt buf body Hdec Hparts Hextra).
    unfold WriteTo. rewrite length_app_nl, Hio, Z.ltb_irrefl, Z.eqb_refl.
    reflexivity.
Qed.

(** The number of a field that is written. A field whose value is a
    numeric literal is rendered as its formatted name followed by the
    value formatter applied to the token as it was decoded; the default
    value formatter returns the token itself (wrapped in red for the field
    "error"), so the token stands in the line byte for byte. *)
Theorem Write_number_token (w : CodecometWriter) (out : S) (p : string)
    (evt : gmap string Value) (buf : string) (field : string) (tok : string) :
  jsonDecode p = inr evt ->
  writeParts w evt (partsOrderOf w) "" = Some buf ->
  evt !! field = Some (VNumber tok) ->
  isExcluded w field = false -> isReserved field = false ->
  field <> "" \/ ErrorFieldName ∉ sortedCandidates w evt ->
  fieldEntry w evt field
  = fieldNameFormatter w field (VString field) +:+
    fieldValueFormatter w field (VNumber tok)
  /\ (FormatFieldValue w = None -> field <> ErrorFieldName ->
      fieldValueFormatter w field (VNumber tok) = tok)
  /\ (FormatErrFieldValue w = None -> field = ErrorFieldName ->
      fieldValueFormatter w field (VNumber tok)
      = colorize tok colorRed (NoColor w))
  /\ exists pre post,
       writeFields w evt buf = pre +:+ fieldEntry w evt field +:+ post
       /\ (FormatExtra w = None ->
           Write w out p =
             match WriteTo (pre +:+ fieldEntry w evt field +:+ post +:+ nl) out
             with
             | Panicked => Panicked
             | Returned (out', err) => Returned (out', (len p, err))
             end).
Proof.
  intros Hdec Hparts Hv He Hr Hne.
  split; [|split; [|split]].
  - unfold fieldEntry, valueAt. rewrite Hv. reflexivity.
  - intros Hfv Hfe. unfold fieldValueFormatter.
    apply String.eqb_neq in Hfe. rewrite Hfe, Hfv. reflexivity.
  - intros Hfv ->. unfold fieldValueFormatter.
    rewrite String.eqb_refl, Hfv. reflexivity.
  - pose proof (candidate_rendered w evt field _ Hv He Hr Hne) as Hin.
    destruct (concat_entry (fieldEntry w evt) " " _ _ Hin) as (pre & post & E).
    exists (buf +:+ blockSeparator w evt buf +:+ pre), post.
    assert (Hline : writeFields w evt buf
                    = (buf +:+ blockSeparator w evt buf +:+ pre) +:+
                      fieldEntry w evt field +:+ post).
    { rewrite writeFields_concat, E. autorewrite with strings. reflexivity. }
    split; [exact Hline|].
    intros Hextra.
    rewrite (Write_flush w out p evt buf (writeFields w evt buf) Hdec Hparts).
    + rewrite Hline, !app_assoc. reflexivity.
    + unfold runFormatExtra. rewrite Hextra. reflexivity.
Qed.

End FieldValues.

(** ** The default formatter of the level *)

Section Level.
Context {rt : Runtime}.

(** C7, as amended. The seven level values give a fixed abbreviation of
    three capitals: TRC in magenta, DBG in yellow, INF in green, and WRN,
    ERR, FTL and PNC all in red, the last three in bold as well. Every
    other string is returned as it is, in bold. A nil level gives three
    question marks in bold. *)
Theorem consoleDefaultFormatLevel_values (noColor : bool) :
  consoleDefaultFormatLevel noColor (VString "trace")
  = Some (colorize "TRC" colorMagenta noColor)
  /\ consoleDefaultFormatLevel noColor (VString "debug")
     = Some (colorize "DBG" colorYellow noColor)
  /\ consoleDefaultFormatLevel noColor (VString "info")
     = Some (colorize "INF" colorGreen noColor)
  /\ consoleDefaultFormatLevel noColor (VString "warn")
     = Some (colorize "WRN" colorRed noColor)
  /\ consoleDefaultFormatLevel noColor (VString "error")
     = Some (colorize (colorize "ERR" colorRed noColor) colorBold noColor)
  /\ consoleDefaultFormatLevel noColor (VString "fatal")
     = Some (colorize (colorize "FTL" colorRed noColor) colorBold noColor)
  /\ consoleDefaultFormatLevel noColor (VString "panic")
     = Some (colorize (colorize "PNC" colorRed noColor) colorBold noColor)
  /\ (forall ll : string,
        ll ∉ ["trace"; "debug"; "info"; "warn"; "error"; "fatal"; "panic"] ->
        consoleDefaultFormatLevel noColor (VString ll)
        = Some (colorize ll colorBold noColor))
  /\ consoleDefaultFormatLevel noColor VNil
     = Some (colorize "???" colorBold noColor).
Proof.
  repeat (split; [reflexivity|]). split; [|reflexivity].
  intros ll Hll. unfold consoleDefaultFormatLevel.
  repeat match goal with
         | |- context [String.eqb ll ?v] =>
             destruct (String.eqb_spec ll v) as [->|_];
             [exfalso; apply Hll; set_solver|]
         end.
  reflexivity.
Qed.

End Level.

(** ** The record [{a:"2", b:"1"}] *)

Section RecordAB.
Context {rt : Runtime} {S : Type} {sink : ioWriter S}.

(** C2, as amended. With an empty part order, no exclusions and the
    default formatters, the record [{a:"2", b:"1"}] gives no part, so no
    separator of two spaces, and the fields in ascending order, [a] then
    [b], one space between the two entries. The default formatter of a
    field name writes a line feed and three tabs before the name, and
    wraps the name and its [=] in cyan unless colors are disabled. This
    block and the terminator make the line that [Write] flushes. *)
Theorem writeFields_a_b (noColor : bool) :
  let w := writerWith noColor (Some []) None in
  let block :=
    colorize (nl +:+ tab +:+ tab +:+ tab +:+ "a=") colorCyan noColor
    +:+ "2" +:+ " " +:+
    colorize (nl +:+ tab +:+ tab +:+ tab +:+ "b=") colorCyan noColor
    +:+ "1" in
  writeParts w evtAB (partsOrderOf w) "" = Some ""
  /\ fieldOrder w evtAB = ["a"; "b"]
  /\ writeFields w evtAB "" = block
  /\ (noColor = true ->
      block = nl +:+ tab +:+ tab +:+ tab +:+ "a=2 "
              +:+ nl +:+ tab +:+ tab +:+ tab +:+ "b=1")
  /\ (forall (p : string) (out : S),
        jsonDecode p = inr evtAB ->
        Write w out p =
          match WriteTo (block +:+ nl) out with
          | Panicked => Panicked
          | Returned (out', err) => Returned (out', (len p, err))
          end).
Proof.
  intros w block.
  assert (Hparts : writeParts w evtAB (partsOrderOf w) "" = Some "")
    by reflexivity.
  assert (Hblock : writeFields w evtAB "" = block)
    by (destruct noColor; vm_compute; reflexivity).
  split; [exact Hparts|]. split; [vm_compute; reflexivity|].
  split; [exact Hblock|]. split; [intros ->; vm_compute; reflexivity|].
  intros p out Hdec.
  rewrite (Write_flush w out p evtAB "" block Hdec Hparts); [reflexivity|].
  unfold runFormatExtra. simpl. rewrite Hblock. reflexivity.
Qed.

End RecordAB.

(** The field block of [{a:"2", b:"1"}] is not [b=1 a=2], with or
    without colors. *)
Lemma writeFields_a_b_not_b_first :
  writeFields (writerWith true (Some []) None) evtAB "" <> "b=1 a=2"
  /\ writeFields (writerWith false (Some []) None) evtAB "" <> "b=1 a=2".
Proof.
  split; vm_compute; discriminate.
Qed.

(** ** The context and the mode under NoColor *)

(** The default formatters of the context and of the mode take no
    [noColor]: whatever the writer says, the context starts with the
    escape byte, and so does a mode that is not nil. *)
Lemma consoleDefaultFormatContext_escape {rt : Runtime} (i : Value) :
  exists s, consoleDefaultFormatContext i = String ESC s.
Proof. eexists. reflexivity. Qed.

Lemma consoleDefaultFormatMode_escape {rt : Runtime} (i : Value) :
  i <> VNil -> exists s, consoleDefaultFormatMode i = String ESC s.
Proof. intros Hi. destruct i; [contradiction|..]; eexists; reflexivity. Qed.

(** ** Evaluations *)

(** C1. [NoColor] is set and the input is [{}], with the default part
    order: the context written by its default formatter is wrapped in the
    escape sequences of bold. The same holds for a mode and its red. *)
Theorem Write_NoColor_escape :
  Write (writerWith true None None) "" "{}"
  = Returned ("<nil> ??? " +:+ esc +:+ "[1mcore  " +:+ esc +:+ "[0m" +:+ nl,
              (2, None))
  /\ Write (writerWith true (Some [ModeFieldName]) None) "" textMode
     = Returned (esc +:+ "[31mdev: " +:+ esc +:+ "[0m" +:+ nl, (14, None))
  /\ hasEscape ("<nil> ??? " +:+ esc +:+ "[1mcore  " +:+ esc +:+ "[0m" +:+ nl)
     = true.
Proof.
  repeat split; vm_compute; reflexivity.
Qed.

(** C3. The record [{"":"x", "error":"boom"}]: "error" is found by the
    search, its entry is blanked, and the filter that skips the blank
    skips the field named [""] with it. Without "error" the same field is
    rendered. *)
Theorem fieldOrder_empty_name_dropped :
  let w := writerWith true (Some []) None in
  sortedCandidates w {[ "" := VString "x"; "error" := VString "boom" ]}
  = [""; "error"]
  /\ fieldOrder w {[ "" := VString "x"; "error" := VString "boom" ]}
     = ["error"]
  /\ Write w "" textEmptyNameError = Returned ("error=boom" +:+ nl, (23, None))
  /\ fieldOrder w {[ "" := VString "x" ]} = [""]
  /\ Write w "" textEmptyName
     = Returned (nl +:+ tab +:+ tab +:+ tab +:+ "=x" +:+ nl, (8, None)).
Proof.
  repeat split; vm_compute; reflexivity.
Qed.

(** The values "warn" and "error" are both written in red (code 31),
    and a string outside the seven values is neither put in capitals nor
    cut to three bytes. *)
Lemma consoleDefaultFormatLevel_red_and_unchanged :
  consoleDefaultFormatLevel false (VString "warn")
  = Some (esc +:+ "[31mWRN" +:+ esc +:+ "[0m")
  /\ consoleDefaultFormatLevel false (VString "error")
     = Some (esc +:+ "[1m" +:+ esc +:+ "[31mERR" +:+ esc +:+ "[0m"
             +:+ esc +:+ "[0m")
  /\ consoleDefaultFormatLevel true (VString "custom") = Some "custom"
  /\ "custom" <> ToUpper "custom"
  /\ String.length "custom" <> 3%nat.
Proof.
  repeat split; vm_compute; (reflexivity || discriminate).
Qed.

(** A message that ends in a line feed: the output of a successful
    [Write] ends with two line feeds. *)
Lemma Write_two_terminators :
  Write (writerWith true (Some [MessageFieldName]) None) "" textMessage
  = Returned ("hi" +:+ nl +:+ nl, (18, None)).
Proof. vm_compute. reflexivity. Qed.

(** The inputs [null] and [{}x] are not one encoded object, and
    [Write] returns no error on them: the decoding succeeds with no key,
    a line is written to the sink and the count is the length of the
    input. *)
Lemma Write_not_an_object_accepted :
  Write (writerWith true None None) "" textNull
  = Returned ("<nil> ??? " +:+ esc +:+ "[1mcore  " +:+ esc +:+ "[0m" +:+ nl,
              (4, None))
  /\ Write (writerWith true None None) "" textTrailing
     = Returned ("<nil> ??? " +:+ esc +:+ "[1mcore  " +:+ esc +:+ "[0m" +:+ nl,
                 (3, None)).
Proof. split; vm_compute; reflexivity. Qed.

(** C6. The record [{"":true, "error":"boom"}] with a marshal hook that
    refuses the value: the field named [""] is dropped with the blanked
    entry of "error", and its diagnostic is not written. Without "error"
    the same field is written with its diagnostic. *)
Theorem Write_marshal_error_empty_name_dropped :
  let w := writerWith true (Some []) None in
  InterfaceMarshalFunc (VBool true) = inl "unsupported value"
  /\ Write w "" textEmptyNameBoolError
     = Returned ("error=boom" +:+ nl, (len textEmptyNameBoolError, None))
  /\ Write w "" textEmptyNameBool
     = Returned (nl +:+ tab +:+ tab +:+ tab +:+ "=[error: unsupported value]"
                 +:+ nl, (len textEmptyNameBool, None)).
Proof. repeat split; vm_compute; reflexivity. Qed.

(** C8. The record [{"":123456789012345678, "error":"boom"}]: the field
    named [""] is dropped with the blanked entry of "error", and the
    token of its number is not in the line. Without "error" the same
    field is written with its token. *)
Theorem Write_number_empty_name_dropped :
  let w := writerWith true (Some []) None in
  Write w "" textEmptyNameNumberError
  = Returned ("error=boom" +:+ nl, (len textEmptyNameNumberError, None))
  /\ Write w "" textEmptyNameNumber
     = Returned (nl +:+ tab +:+ tab +:+ tab +:+ "=123456789012345678" +:+ nl,
                 (len textEmptyNameNumber, None)).
Proof. repeat split; vm_compute; reflexivity. Qed.

(** ** The theorems at concrete inputs *)

Lemma Write_decode_error_witness :
  jsonDecode "123"
  = inl "json: cannot unmarshal number into Go value of type map[string]interface {}"
  /\ Write (writerWith false None None) "" "123"
     = Returned ("", (0, Some ("cannot decode event: " +:+
         "json: cannot unmarshal number into Go value of type map[string]interface {}"))).
Proof.
  split; [reflexivity|].
  apply (Write_decode_error (writerWith false None None) "" "123").
  reflexivity.
Defined.

Lemma Write_extra_error_witness :
  failingExtra evtAB (writeFields (writerWith true (Some []) (Some failingExtra)) evtAB "")
  = (nl +:+ tab +:+ tab +:+ tab +:+ "a=2 " +:+ nl +:+ tab +:+ tab +:+ tab
     +:+ "b=1goroutine 1", Some "stack unavailable")
  /\ Write (writerWith true (Some []) (Some failingExtra)) "" textAB
     = Returned ("", (0, Some "stack unavailable")).
Proof.
  split; [vm_compute; reflexivity|].
  apply (Write_extra_error (writerWith true (Some []) (Some failingExtra)) ""
           textAB evtAB ""
           (nl +:+ tab +:+ tab +:+ tab +:+ "a=2 " +:+ nl +:+ tab +:+ tab
            +:+ tab +:+ "b=1goroutine 1")
           failingExtra "stack unavailable");
    vm_compute; reflexivity.
Defined.

Lemma Write_marshal_error_witness :
  InterfaceMarshalFunc (VBool true) = inl "unsupported value"
  /\ fieldEntry (writerWith true (Some []) None) {[ "k" := VBool true ]} "k"
     = nl +:+ tab +:+ tab +:+ tab +:+ "k=[error: unsupported value]"
  /\ Write (writerWith true (Some []) None) "" textBool
     = Returned (nl +:+ tab +:+ tab +:+ tab +:+ "k=[error: unsupported value]"
                 +:+ nl, (10, None)).
Proof.
  split; [reflexivity|].
  destruct (Write_marshal_error (writerWith true (Some []) None) "" textBool
              {[ "k" := VBool true ]} "" "k" (VBool true) "unsupported value")
    as (Hentry & _ & _ & HW);
    try (vm_compute; reflexivity); try discriminate; try (left; discriminate).
  split; [exact Hentry|].
  apply (HW (nl +:+ tab +:+ tab +:+ tab +:+ "k=[error: unsupported value]"));
    vm_compute; reflexivity.
Defined.

Lemma Write_number_token_witness :
  let w := writerWith true (Some []) None in
  let evt : gmap string Value := {[ "n" := VNumber "123456789012345678" ]} in
  jsonDecode textNumber = inr evt
  /\ fieldEntry w evt "n"
     = fieldNameFormatter w "n" (VString "n") +:+
       fieldValueFormatter w "n" (VNumber "123456789012345678")
  /\ fieldValueFormatter w "n" (VNumber "123456789012345678")
     = "123456789012345678".
Proof.
  intros w evt. split; [reflexivity|].
  destruct (Write_number_token w "" textNumber evt "" "n" "123456789012345678")
    as (Hentry & Hdefault & _);
    try (vm_compute; reflexivity); try (left; discriminate).
  split; [exact Hentry|].
  apply Hdefault; [reflexivity|discriminate].
Defined.

Lemma Write_success_line_witness :
  exists (evt : gmap string Value) (buf body : string),
    jsonDecode textMessage = inr evt /\
    writeParts (writerWith true (Some [MessageFieldName]) None) evt
      (partsOrderOf (writerWith true (Some [MessageFieldName]) None)) ""
    = Some buf /\
    runFormatExtra (writerWith true (Some [MessageFieldName]) None) evt
      (writeFields (writerWith true (Some [MessageFieldName]) None) evt buf)
    = (body, None) /\
    ioWrite "" (body +:+ nl)
    = ("hi" +:+ nl +:+ nl, (len (body +:+ nl), None)).
Proof.
  apply (Write_success_line (writerWith true (Some [MessageFieldName]) None)
           "" ("hi" +:+ nl +:+ nl) textMessage 18).
  vm_compute. reflexivity.
Defined.

Lemma writeFields_a_b_witness :
  jsonDecode textAB = inr evtAB
  /\ Write (writerWith true (Some []) None) "" textAB
     = Returned (nl +:+ tab +:+ tab +:+ tab +:+ "a=2 "
                 +:+ nl +:+ tab +:+ tab +:+ tab +:+ "b=1" +:+ nl, (17, None)).
Proof.
  split; [reflexivity|].
  destruct (writeFields_a_b (S := string) true) as (_ & _ & _ & _ & HW).
  rewrite (HW textAB "" eq_refl). vm_compute. reflexivity.
Defined.

Lemma Write_count_witness :
  (exists err, Write (writerWith true (Some []) None) "" "123"
               = Returned ("", (0, Some err)))
  /\ Write (writerWith true (Some []) (Some failingExtra)) "" textAB
     = Returned ("", (0, Some "stack unavailable"))
  /\ (exists err,
        Write (writerWith true (Some []) None) ClosedFile textAB
        = Returned (ClosedFile, (17, err))
        /\ err = Some "file already closed")
  /\ (exists err,
        Write (writerWith true (Some []) None) "" textAB
        = Returned (nl +:+ tab +:+ tab +:+ tab +:+ "a=2 " +:+ nl +:+ tab
                    +:+ tab +:+ tab +:+ "b=1" +:+ nl, (17, err))
        /\ err = None).
Proof.
  pose (body := nl +:+ tab +:+ tab +:+ tab +:+ "a=2 " +:+ nl +:+ tab +:+ tab
                +:+ tab +:+ "b=1").
  pose (w := writerWith true (Some []) None).
  pose (wx := writerWith true (Some []) (Some failingExtra)).
  assert (Hdec : jsonDecode textAB = inr evtAB) by reflexivity.
  assert (Hparts : writeParts w evtAB (partsOrderOf w) "" = Some "")
    by reflexivity.
  assert (Hpartsx : writeParts wx evtAB (partsOrderOf wx) "" = Some "")
    by reflexivity.
  assert (Hbody : FormatExtra w = None /\ body = writeFields w evtAB ""
                  \/ (exists extra,
                        FormatExtra w = Some extra
                        /\ extra evtAB (writeFields w evtAB "") = (body, None))).
  { left. split; vm_compute; reflexivity. }
  split; [|split; [|split]].
  - destruct (Write_count w "" "123") as [Hfail _].
    apply (Hfail "json: cannot unmarshal number into Go value of type map[string]interface {}").
    reflexivity.
  - destruct (Write_count wx "" textAB) as [_ Hok].
    destruct (Hok evtAB "" Hdec Hpartsx) as [Hhook _].
    apply (Hhook failingExtra (body +:+ "goroutine 1") "stack unavailable");
      vm_compute; reflexivity.
  - destruct (Write_count w ClosedFile textAB) as [_ Hok].
    destruct (Hok evtAB "" Hdec Hparts) as [_ Hflush].
    assert (Hio : ioWrite ClosedFile (body +:+ nl)
                  = (ClosedFile, (0, Some "file already closed")))
      by reflexivity.
    assert (Hm : 0 <= len (body +:+ nl))
      by (apply Z.leb_le; vm_compute; reflexivity).
    destruct (Hflush body ClosedFile 0 (Some "file already closed")
                Hbody Hio Hm) as (err & HW & Herr & _).
    exists err. split; [exact HW|]. apply Herr. reflexivity.
  - destruct (Write_count w "" textAB) as [_ Hok].
    destruct (Hok evtAB "" Hdec Hparts) as [_ Hflush].
    assert (Hio : ioWrite "" (body +:+ nl) = (body +:+ nl, (16, None)))
      by (vm_compute; reflexivity).
    assert (Hm : 16 <= len (body +:+ nl))
      by (apply Z.leb_le; vm_compute; reflexivity).
    destruct (Hflush body (body +:+ nl) 16 None Hbody Hio Hm)
      as (err & HW & _ & Herr).
    exists err. split; [exact HW|]. apply Herr; vm_compute; reflexivity.
Defined.

Lemma consoleDefaultFormatLevel_values_witness :
  consoleDefaultFormatLevel true (VString "custom") = Some "custom".
Proof.
  destruct (consoleDefaultFormatLevel_values true)
    as (_ & _ & _ & _ & _ & _ & _ & Hother & _).
  apply (Hother "custom").
  apply (bool_decide_unpack _). vm_compute. exact I.
Defined.

(** * More of the writer *)

(** ** needsQuote *)

Lemma quoteByte_plainByte (c : ascii) : quoteByte c = negb (plainByte c).
Proof. destruct c as [[] [] [] [] [] [] [] []]; vm_compute; reflexivity. Qed.

Lemma quoteByte_false_ascii (c : ascii) :
  quoteByte c = false -> (byteOf c <? 128) = true.
Proof. destruct c as [[] [] [] [] [] [] [] []]; vm_compute; congruence. Qed.

Lemma needsQuote_plain (s : string) :
  needsQuote s = negb (forallb plainByte (bytes s)).
Proof.
  unfold needsQuote. induction (bytes s) as [|c l IH]; [reflexivity|].
  simpl. rewrite IH, quoteByte_plainByte, negb_andb. reflexivity.
Qed.

(** X1. [needsQuote] ranges over the runes of the string and tests the
    first byte of each; its answer is the answer of the test on every
    byte, for every string, valid UTF-8 or not: a string needs quotes
    exactly when one of its bytes is not a plain byte. *)
Theorem needsQuoteRange_bytes (s : string) :
  needsQuoteRange s = needsQuote s
  /\ needsQuoteRange s = negb (forallb plainByte (bytes s)).
Proof.
  assert (H : needsQuoteRange s = needsQuote s).
  { unfold needsQuoteRange, needsQuote.
    induction (bytes s) as [|c l IH]; [reflexivity|].
    simpl. destruct (quoteByte c) eqn:Hc; [reflexivity|].
    unfold runeSize. rewrite (quoteByte_false_ascii c Hc). exact IH. }
  split; [exact H|]. rewrite H. apply needsQuote_plain.
Qed.

Section StringValues.
Context {rt : Runtime}.


End StringValues.


(** ** The part block *)

Lemma nonEmpty_app (s t : string) : nonEmpty (s +:+ t) = nonEmpty s || nonEmpty t.
Proof.
  unfold nonEmpty. rewrite length_app.
  destruct (String.length s), (String.length t); reflexivity.
Qed.

Lemma nonEmpty_false (s : string) : nonEmpty s = false -> s = "".
Proof. destruct s; [reflexivity|discriminate]. Qed.

(** The texts that are not empty, with one space between two of them. *)
Lemma nonEmpty_concat (texts : list string) :
  nonEmpty (String.concat " " (List.filter nonEmpty texts))
  = existsb nonEmpty texts.
Proof.
  induction texts as [|t rest IH]; [reflexivity|].
  simpl. destruct (nonEmpty t) eqn:Ht; [|exact IH].
  simpl. destruct (List.filter nonEmpty rest); [exact Ht|].
  rewrite nonEmpty_app, Ht. reflexivity.
Qed.

Section PartBlock.
Context {rt : Runtime}.

Lemma writePart_partText (w : CodecometWriter) (evt : gmap string Value)
    (p buf : string) :
  levelFormats w evt = true ->
  writePart w buf evt p
  = Some (if nonEmpty (partText w evt p)
          then (if nonEmpty buf then buf +:+ " " else buf) +:+ partText w evt p
          else buf).
Proof.
  intros Hl. destruct (writePart_returns w evt p buf Hl) as [buf' Hbuf'].
  revert Hbuf'. unfold writePart, partText, isPartExcluded, nonEmpty.
  destruct (existsb _ (PartsExclude w)); [reflexivity|].
  destruct (partFormatter w p (valueAt evt p)); [reflexivity|discriminate].
Qed.

Lemma writeParts_join (w : CodecometWriter) (evt : gmap string Value)
    (parts : list string) (buf : string) :
  levelFormats w evt = true ->
  let block :=
    String.concat " " (List.filter nonEmpty (map (partText w evt) parts)) in
  writeParts w evt parts buf
  = Some (buf +:+ (if nonEmpty buf && nonEmpty block then " " else "")
              +:+ block).
Proof.
  intros Hl. revert buf. induction parts as [|p rest IH]; intros buf.
  - simpl. rewrite andb_false_r. autorewrite with strings. reflexivity.
  - cbn [writeParts map List.filter]. rewrite (writePart_partText w evt p buf Hl).
    rewrite IH. f_equal.
    set (texts := List.filter nonEmpty (map (partText w evt) rest)).
    pose proof (nonEmpty_concat (map (partText w evt) rest)) as Hrest.
    fold texts in Hrest.
    destruct (nonEmpty (partText w evt p)) eqn:Ht; [|reflexivity].
    destruct texts as [|t texts'] eqn:Htexts.
    + cbn [String.concat]. change (nonEmpty "") with false.
      rewrite andb_false_r, Ht, andb_true_r.
      destruct (nonEmpty buf); autorewrite with strings; reflexivity.
    + change (String.concat " " (partText w evt p :: t :: texts'))
        with (partText w evt p +:+ " " +:+ String.concat " " (t :: texts')).
      rewrite !nonEmpty_app, Ht, !orb_true_r, !andb_true_r.
      assert (Hne : nonEmpty (String.concat " " (t :: texts')) = true).
      { rewrite Hrest. apply existsb_exists. exists t. split.
        - apply (proj1 (List.filter_In nonEmpty t (map (partText w evt) rest))).
          fold texts. rewrite Htexts. left. reflexivity.
        - apply (proj1 (List.filter_In nonEmpty t (map (partText w evt) rest))).
          fold texts. rewrite Htexts. left. reflexivity. }
      rewrite Hne.
      destruct (nonEmpty buf); autorewrite with strings; reflexivity.
Qed.

(** X3. When the level can be formatted, the part block is the texts of
    the parts in the configured order, one space between two of them; a
    part that is excluded or whose text is empty gives no text and no
    space, so the block never starts or ends with a space that the writer
    put there and never holds two of them in a row. *)
Theorem writeParts_block (w : CodecometWriter) (evt : gmap string Value)
    (parts : list string) :
  levelFormats w evt = true ->
  writeParts w evt parts ""
  = Some (String.concat " "
            (List.filter nonEmpty (map (partText w evt) parts))).
Proof.
  intros Hl. rewrite (writeParts_join w evt parts "" Hl). reflexivity.
Qed.

End PartBlock.

Lemma writeParts_block_witness :
  writeParts (writerWith true None None) {[ "message" := VString "hi" ]}
    consoleDefaultPartsOrder ""
  = Some ("<nil> ??? " +:+ esc +:+ "[1mcore  " +:+ esc +:+ "[0m hi").
Proof.
  rewrite (writeParts_block (writerWith true None None)
             {[ "message" := VString "hi" ]} consoleDefaultPartsOrder);
    vm_compute; reflexivity.
Defined.

(** ** The panic of the level *)

Section LevelPanic.
Context {rt : Runtime} {S : Type} {sink : ioWriter S}.

Lemma writePart_None (w : CodecometWriter) (evt : gmap string Value)
    (p buf : string) :
  writePart w buf evt p = None <->
  p = LevelFieldName /\ isPartExcluded w p = false
  /\ levelFormats w evt = false.
Proof.
  split.
  - intros Hnone.
    destruct (levelFormats w evt) eqn:Hl.
    { destruct (writePart_returns w evt p buf Hl) as [b Hb]. congruence. }
    revert Hnone. unfold writePart, isPartExcluded.
    destruct (existsb _ (PartsExclude w)); [discriminate|].
    unfold partFormatter.
    destruct (String.eqb_spec p LevelFieldName) as [->|_]; [tauto|].
    repeat match goal with
           | |- context [if String.eqb p ?x then _ else _] =>
               destruct (String.eqb p x)
           end;
      unfold orDefault, total;
      destruct (FormatTimestamp w), (FormatMessage w), (FormatContext w),
        (FormatMode w), (FormatFieldValue w); discriminate.
  - intros (-> & Hex & Hl). unfold isPartExcluded in Hex.
    unfold writePart. rewrite Hex.
    unfold levelFormats in Hl. unfold partFormatter, orDefault.
    rewrite String.eqb_refl.
    destruct (FormatLevel w); [discriminate|].
    unfold consoleDefaultFormatLevel.
    destruct (valueAt evt LevelFieldName); try discriminate;
      cbv zeta; rewrite Hl; reflexivity.
Qed.

Lemma writeParts_None (w : CodecometWriter) (evt : gmap string Value)
    (parts : list string) (buf : string) :
  writeParts w evt parts buf = None <->
  LevelFieldName ∈ parts /\ isPartExcluded w LevelFieldName = false
  /\ levelFormats w evt = false.
Proof.
  revert buf. induction parts as [|p rest IH]; intros buf; simpl.
  - split; [discriminate|]. intros (Hin & _). inversion Hin.
  - destruct (writePart w buf evt p) as [buf'|] eqn:Hp.
    + rewrite IH, elem_of_cons. split; [tauto|].
      intros ([<-|Hin] & Hex & Hl); [|tauto].
      exfalso.
      assert (writePart w buf evt LevelFieldName = None) as Hn
        by (apply writePart_None; tauto).
      congruence.
    + apply writePart_None in Hp as (-> & Hex & Hl).
      split; [|reflexivity]. intros _. split; [left|tauto].
Qed.

(** X4. The parts panic exactly when the level is among the parts to
    write, is not excluded, has no override, and its value is neither a
    string nor nil with a text of fewer than three bytes (the slice
    [[0:3]] of the default formatter); [Write] then panics, whatever the
    sink. Every other part is written without a panic. *)
Theorem writeParts_panics (w : CodecometWriter) (evt : gmap string Value)
    (parts : list string) (buf : string) :
  (writeParts w evt parts buf = None <->
   LevelFieldName ∈ parts /\ isPartExcluded w LevelFieldName = false
   /\ levelFormats w evt = false)
  /\ (forall (out : S) (p : string),
        jsonDecode p = inr evt ->
        writeParts w evt (partsOrderOf w) "" = None ->
        Write w out p = Panicked).
Proof.
  split; [apply writeParts_None|].
  intros out p Hdec Hparts. unfold Write. rewrite Hdec, Hparts. reflexivity.
Qed.

End LevelPanic.

Lemma writeParts_panics_witness :
  jsonDecode textLevel = inr {[ "level" := VNumber "1" ]}
  /\ writeParts (writerWith true None None) {[ "level" := VNumber "1" ]}
       (partsOrderOf (writerWith true None None)) "" = None
  /\ Write (writerWith true None None) "" textLevel = Panicked.
Proof.
  split; [reflexivity|].
  destruct (writeParts_panics (S := string) (writerWith true None None)
              {[ "level" := VNumber "1" ]}
              (partsOrderOf (writerWith true None None)) "") as [Hiff HW].
  assert (Hnone : writeParts (writerWith true None None)
                    {[ "level" := VNumber "1" ]}
                    (partsOrderOf (writerWith true None None)) "" = None).
  { apply Hiff. split; [|split]; [|reflexivity|reflexivity].
    apply (bool_decide_unpack _). vm_compute. exact I. }
  split; [exact Hnone|].
  apply (HW "" textLevel); [reflexivity|exact Hnone].
Defined.

(** ** Keys that leave no trace *)

Lemma valueAt_delete_ne (evt : gmap string Value) (k field : string) :
  field <> k -> valueAt (delete k evt) field = valueAt evt field.
Proof. intros Hne. unfold valueAt. rewrite lookup_delete_ne; [reflexivity|auto]. Qed.

Lemma valueAt_delete_nil (evt : gmap string Value) (k : string) :
  evt !! k = Some VNil -> valueAt (delete k evt) k = valueAt evt k.
Proof. intros Hk. unfold valueAt. rewrite lookup_delete_eq, Hk. reflexivity. Qed.

Lemma sortedCandidates_delete (w : CodecometWriter) (evt : gmap string Value)
    (k : string) :
  notCandidate w k = true ->
  sortedCandidates w (delete k evt) = sortedCandidates w evt.
Proof.
  intros Hk.
  apply (StronglySorted_unique String.le); try apply sortedCandidates_sorted.
  apply NoDup_Permutation; try apply sortedCandidates_NoDup.
  intros field. rewrite !elem_of_sortedCandidates.
  destruct (decide (field = k)) as [->|Hne].
  - unfold notCandidate in Hk. apply orb_true_iff in Hk.
    split; intros (_ & He & Hr); destruct Hk; congruence.
  - rewrite lookup_delete_ne; [reflexivity|auto].
Qed.

Section Traceless.
Context {rt : Runtime}.

Lemma writeParts_ext (w : CodecometWriter) (evt evt' : gmap string Value)
    (parts : list string) (buf : string) :
  (forall p, p ∈ parts -> valueAt evt' p = valueAt evt p) ->
  writeParts w evt' parts buf = writeParts w evt parts buf.
Proof.
  revert buf. induction parts as [|p rest IH]; intros buf Hext; [reflexivity|].
  simpl. unfold writePart. rewrite (Hext p) by left.
  destruct (existsb _ (PartsExclude w)).
  - apply IH. intros q Hq. apply Hext. right. exact Hq.
  - destruct (partFormatter w p (valueAt evt p)); [|reflexivity].
    apply IH. intros q Hq. apply Hext. right. exact Hq.
Qed.

Lemma fieldEntry_delete (w : CodecometWriter) (evt : gmap string Value)
    (k field : string) :
  field <> k -> fieldEntry w (delete k evt) field = fieldEntry w evt field.
Proof.
  intros Hne. unfold fieldEntry. rewrite (valueAt_delete_ne evt k field Hne).
  reflexivity.
Qed.

Lemma writeFields_delete (w : CodecometWriter) (evt : gmap string Value)
    (k buf : string) :
  notCandidate w k = true ->
  writeFields w (delete k evt) buf = writeFields w evt buf.
Proof.
  intros Hk. rewrite !writeFields_concat.
  unfold blockSeparator. rewrite !fieldOrder_sortedCandidates.
  rewrite (sortedCandidates_delete w evt k Hk).
  do 3 f_equal. apply map_ext_in. intros field Hin.
  apply fieldEntry_delete. intros ->.
  apply list_elem_of_In in Hin.
  rewrite <- fieldOrder_sortedCandidates in Hin.
  apply elem_of_fieldOrder in Hin as [Hin _].
  apply elem_of_sortedCandidates in Hin as (_ & He & Hr).
  unfold notCandidate in Hk. rewrite He, Hr in Hk. discriminate.
Qed.

(** X5. A key that [writeFields] skips (a reserved or an excluded name)
    and whose value is nil is the same as no key: the parts and the
    fields written for the record and for the record without the key are
    the same bytes. So [mode: null] and no [mode] at all give the same
    line. *)
Theorem nil_key_absent (w : CodecometWriter) (evt : gmap string Value)
    (k : string) (parts : list string) (buf : string) :
  evt !! k = Some VNil ->
  notCandidate w k = true ->
  writeParts w (delete k evt) parts buf = writeParts w evt parts buf
  /\ writeFields w (delete k evt) buf = writeFields w evt buf.
Proof.
  intros Hnil Hk. split; [|apply writeFields_delete, Hk].
  apply writeParts_ext. intros p _.
  destruct (decide (p = k)) as [->|Hne].
  - apply valueAt_delete_nil, Hnil.
  - apply valueAt_delete_ne, Hne.
Qed.

(** X6. A key that [writeFields] skips and that is not in the part order
    is not rendered at all, whatever its value: the parts and the fields
    are those of the record without the key. With the default order this
    is the fate of [caller]. *)
Theorem unlisted_key_ignored (w : CodecometWriter) (evt : gmap string Value)
    (k : string) (parts : list string) (buf : string) :
  notCandidate w k = true ->
  k ∉ parts ->
  writeParts w (delete k evt) parts buf = writeParts w evt parts buf
  /\ writeFields w (delete k evt) buf = writeFields w evt buf.
Proof.
  intros Hk Hparts. split; [|apply writeFields_delete, Hk].
  apply writeParts_ext. intros p Hp.
  apply valueAt_delete_ne. intros ->. contradiction.
Qed.

End Traceless.

Lemma nil_key_absent_witness :
  let w := writerWith true None None in
  let evt : gmap string Value :=
    {[ "mode" := VNil; "message" := VString "hi" ]} in
  writeParts w (delete "mode" evt) consoleDefaultPartsOrder ""
  = writeParts w evt consoleDefaultPartsOrder ""
  /\ writeFields w (delete "mode" evt) "" = writeFields w evt "".
Proof.
  intros w evt.
  apply (nil_key_absent w evt "mode" consoleDefaultPartsOrder "");
    reflexivity.
Defined.

Lemma unlisted_key_ignored_witness :
  let w := writerWith true None None in
  let evt : gmap string Value :=
    {[ "caller" := VString "main.go:12"; "message" := VString "hi" ]} in
  writeParts w (delete "caller" evt) consoleDefaultPartsOrder ""
  = writeParts w evt consoleDefaultPartsOrder ""
  /\ writeFields w (delete "caller" evt) "" = writeFields w evt "".
Proof.
  intros w evt.
  apply (unlisted_key_ignored w evt "caller" consoleDefaultPartsOrder "");
    [reflexivity|].
  apply (bool_decide_unpack _). vm_compute. exact I.
Defined.

(** ** The fields that are written and their order *)

Lemma StronglySorted_filter (f : string -> bool) (l : list string) :
  StronglySorted String.le l -> StronglySorted String.le (List.filter f l).
Proof.
  induction 1 as [|x l Hs IH Hall]; simpl; [constructor|].
  destruct (f x); [|exact IH].
  constructor; [exact IH|].
  rewrite Forall_forall in *. intros y Hy.
  apply Hall. apply list_elem_of_In, List.filter_In in Hy as [Hy _].
  apply list_elem_of_In, Hy.
Qed.

Lemma error_candidate (w : CodecometWriter) (evt : gmap string Value) :
  ErrorFieldName ∈ sortedCandidates w evt <->
  is_Some (evt !! ErrorFieldName) /\ isExcluded w ErrorFieldName = false.
Proof.
  rewrite elem_of_sortedCandidates.
  change (isReserved ErrorFieldName) with false. tauto.
Qed.

(** X7. The fields that are written are the keys of the record that are
    neither excluded nor reserved, each of them once; the only key of that
    kind that is not written is the one with the empty name in a record
    where "error" is written too. *)
Theorem fields_written (w : CodecometWriter) (evt : gmap string Value) :
  NoDup (fieldOrder w evt)
  /\ forall field : string,
       field ∈ fieldOrder w evt <->
       is_Some (evt !! field) /\ isExcluded w field = false
       /\ isReserved field = false
       /\ (field <> ""
           \/ evt !! ErrorFieldName = None
           \/ isExcluded w ErrorFieldName = true).
Proof.
  split.
  - destruct (decide (ErrorFieldName ∈ sortedCandidates w evt)) as [Herr|Herr].
    + rewrite (fieldOrder_error w evt Herr). constructor.
      * intros Hin. apply list_elem_of_In, List.filter_In in Hin as [_ Hin].
        discriminate.
      * apply NoDup_ListNoDup, List.NoDup_filter, NoDup_ListNoDup,
          sortedCandidates_NoDup.
    + rewrite (fieldOrder_no_error w evt Herr). apply sortedCandidates_NoDup.
  - intros field.
    rewrite elem_of_fieldOrder, elem_of_sortedCandidates, error_candidate.
    split.
    + intros ((Hv & He & Hr) & [Hne|Habs]); repeat split; try assumption;
        [left; exact Hne|].
      right. destruct (evt !! ErrorFieldName) eqn:Hl; [|left; reflexivity].
      right. destruct (isExcluded w ErrorFieldName); [reflexivity|].
      exfalso. apply Habs. split; [eauto|reflexivity].
    + intros (Hv & He & Hr & Hcases). split; [tauto|].
      destruct Hcases as [Hne|[Hnone|Hex]]; [left; exact Hne|right|right].
      * intros [[v Hv'] _]. congruence.
      * intros [_ Hex']. congruence.
Qed.

(** X8. The order of the fields: without "error" they are written in
    ascending byte order of their names; with "error", it comes first and
    the others follow in ascending byte order. *)
Theorem fieldOrder_ascending (w : CodecometWriter) (evt : gmap string Value) :
  (ErrorFieldName ∉ fieldOrder w evt ->
   StronglySorted String.le (fieldOrder w evt))
  /\ (ErrorFieldName ∈ fieldOrder w evt ->
      exists rest,
        fieldOrder w evt = ErrorFieldName :: rest
        /\ StronglySorted String.le rest
        /\ ErrorFieldName ∉ rest).
Proof.
  destruct (decide (ErrorFieldName ∈ sortedCandidates w evt)) as [Herr|Herr].
  - rewrite (fieldOrder_error w evt Herr). split.
    + intros Habs. exfalso. apply Habs. left.
    + intros _. eexists. split; [reflexivity|]. split.
      * apply StronglySorted_filter, sortedCandidates_sorted.
      * intros Hin. apply list_elem_of_In, List.filter_In in Hin as [_ Hin].
        discriminate.
  - rewrite (fieldOrder_no_error w evt Herr). split.
    + intros _. apply sortedCandidates_sorted.
    + intros Hin. contradiction.
Qed.

(** X9. Go leaves the order of [range] over a map open; the fields are
    sorted before anything is written, so every order in which the map
    may yield its keys gives the same fields in the same order. *)
Theorem fieldOrder_any_key_order (w : CodecometWriter)
    (evt : gmap string Value) (keys : list string) :
  keys ≡ₚ (map_to_list evt).*1 ->
  moveErrorToFront (sortStrings (collectFields w keys)) = fieldOrder w evt.
Proof.
  intros Hp. unfold fieldOrder.
  rewrite (collectFields_Permutation w keys _ Hp). reflexivity.
Qed.

Section FieldBlockShape.
Context {rt : Runtime}.

(** X10. The field block: two spaces after the parts when there are
    parts and candidates, nothing otherwise; then the entries of the
    fields with one space between two of them and none after the last.
    A record without candidates leaves the buffer as it is. *)
Theorem writeFields_block (w : CodecometWriter) (evt : gmap string Value)
    (buf : string) :
  writeFields w evt buf
  = buf +:+
    (if nonEmpty buf && negb (bool_decide (sortedCandidates w evt = []))
     then "  " else "")
    +:+ String.concat " " (map (fieldEntry w evt) (fieldOrder w evt))
  /\ (sortedCandidates w evt = [] -> writeFields w evt buf = buf).
Proof.
  assert (Hsep : blockSeparator w evt buf
                 = if nonEmpty buf
                      && negb (bool_decide (sortedCandidates w evt = []))
                   then "  " else "").
  { unfold blockSeparator, nonEmpty.
    destruct (sortedCandidates w evt); reflexivity. }
  split.
  - rewrite writeFields_concat, Hsep. reflexivity.
  - intros Hnil. rewrite writeFields_concat, Hsep.
    rewrite fieldOrder_sortedCandidates, Hnil. simpl.
    rewrite andb_false_r. autorewrite with strings. reflexivity.
Qed.


End FieldBlockShape.

Lemma fieldOrder_any_key_order_witness :
  moveErrorToFront
    (sortStrings (collectFields (writerWith true (Some []) None) ["b"; "a"]))
  = fieldOrder (writerWith true (Some []) None) evtAB.
Proof.
  apply (fieldOrder_any_key_order (writerWith true (Some []) None) evtAB
           ["b"; "a"]).
  change ((map_to_list evtAB).*1) with ["a"; "b"]. apply perm_swap.
Defined.


(** ** The defaults of the constructor and the zero value *)

Section Defaults.
Context {rt : Runtime} {S : Type} {sink : ioWriter S}.

Lemma consoleDefaultFormatTimestamp_default (timeFormat : string)
    (noColor : bool) (i : Value) :
  consoleDefaultFormatTimestamp
    (if String.eqb timeFormat "" then consoleDefaultTimeFormat else timeFormat)
    noColor i
  = consoleDefaultFormatTimestamp timeFormat noColor i.
Proof.
  unfold consoleDefaultFormatTimestamp.
  destruct (String.eqb timeFormat "") eqn:E; [reflexivity|].
  rewrite E. reflexivity.
Qed.

Lemma writeParts_withDefaults (w : CodecometWriter) (evt : gmap string Value)
    (parts : list string) (buf : string) :
  writeParts (withDefaults w) evt parts buf = writeParts w evt parts buf.
Proof.
  revert buf. induction parts as [|p rest IH]; intros buf; [reflexivity|].
  simpl.
  assert (Hp : writePart (withDefaults w) buf evt p = writePart w buf evt p).
  { unfold writePart, partFormatter.
    change (PartsExclude (withDefaults w)) with (PartsExclude w).
    destruct (existsb _ (PartsExclude w)); [reflexivity|].
    destruct (String.eqb p LevelFieldName); [reflexivity|].
    destruct (String.eqb p TimestampFieldName); [|reflexivity].
    unfold orDefault, total.
    change (FormatTimestamp (withDefaults w)) with (FormatTimestamp w).
    destruct (FormatTimestamp w); [reflexivity|].
    change (NoColor (withDefaults w)) with (NoColor w).
    change (TimeFormat (withDefaults w))
      with (if String.eqb (TimeFormat w) "" then consoleDefaultTimeFormat
            else TimeFormat w).
    rewrite consoleDefaultFormatTimestamp_default. reflexivity. }
  rewrite Hp. destruct (writePart w buf evt p); [apply IH|reflexivity].
Qed.

(** X12. The defaults that [NewCodecometWriter] writes into the writer
    are the fallbacks that [Write] and the timestamp formatter apply to an
    empty [TimeFormat] and a nil [PartsOrder]: filling them in changes no
    output. So the writer of [NewCodecometWriter] without options, the
    zero value, and the writer that [Init] installs with
    [zerolog.TimeFormatUnix] give the same result on every input. *)
Theorem Write_withDefaults (w : CodecometWriter) (out : S) (p : string) :
  Write (withDefaults w) out p = Write w out p
  /\ Write (NewCodecometWriter []) out p = Write InitOutput out p.
Proof.
  assert (H : forall w', Write (withDefaults w') out p = Write w' out p).
  { intros w'. unfold Write.
    destruct (jsonDecode p) as [e|evt]; [reflexivity|].
    change (partsOrderOf (withDefaults w')) with (partsOrderOf w').
    rewrite writeParts_withDefaults.
    destruct (writeParts w' evt (partsOrderOf w') "") as [buf|]; [|reflexivity].
    assert (Hf : writeFields (withDefaults w') evt buf = writeFields w' evt buf)
      by (rewrite !writeFields_concat; reflexivity).
    rewrite Hf. reflexivity. }
  split; [apply H|].
  rewrite <- (H InitOutput). reflexivity.
Qed.

End Defaults.

(** ** The field block without colors *)

Lemma bytes_app (s t : string) : bytes (s +:+ t) = bytes s ++ bytes t.
Proof.
  unfold bytes. induction s as [|c s IH]; [reflexivity|].
  rewrite app_cons. simpl. rewrite IH. reflexivity.
Qed.

Lemma hasEscape_app (s t : string) :
  hasEscape (s +:+ t) = hasEscape s || hasEscape t.
Proof. unfold hasEscape. rewrite bytes_app. apply existsb_app. Qed.

Section NoColorFields.
Context {rt : Runtime}.

Lemma fieldEntry_NoColor (w : CodecometWriter) (evt : gmap string Value)
    (field : string) :
  NoColor w = true ->
  FormatFieldName w = None -> FormatFieldValue w = None ->
  FormatErrFieldName w = None -> FormatErrFieldValue w = None ->
  fieldEntry w evt field
  = (if String.eqb field ErrorFieldName then ""
     else nl +:+ tab +:+ tab +:+ tab)
    +:+ field +:+ "=" +:+ valueText evt field.
Proof.
  intros Hnc Hfn Hfv Hen Hev.
  unfold fieldEntry, fieldNameFormatter, fieldValueFormatter, valueText.
  rewrite Hnc, Hfn, Hfv, Hen, Hev.
  unfold consoleDefaultFormatErrFieldName, consoleDefaultFormatErrFieldValue,
    consoleDefaultFormatFieldName, consoleDefaultFormatFieldValue.
  rewrite !colorize_disabled.
  destruct (String.eqb field ErrorFieldName);
    destruct (valueAt evt field) as [|s|tok|b|l|m|b];
    try destruct (needsQuote s);
    try destruct (InterfaceMarshalFunc _);
    rewrite ?Sprintf_v_diagnostic, ?colorize_disabled;
    cbn [Sprintf_s]; autorewrite with strings; reflexivity.
Qed.

(** X13. With [NoColor] set and the default formatters of the field
    names and values, an entry is the name, [=] and the text of the
    value, after a line feed and three tabs unless the field is "error",
    and the writer adds no escape byte to the field block: the block holds
    one only where the buffer it continues, a name, a quoted string, a
    number token or a marshalled text holds one. *)
Theorem writeFields_NoColor (w : CodecometWriter) (evt : gmap string Value)
    (buf : string) :
  NoColor w = true ->
  FormatFieldName w = None -> FormatFieldValue w = None ->
  FormatErrFieldName w = None -> FormatErrFieldValue w = None ->
  (forall field,
     fieldEntry w evt field
     = (if String.eqb field ErrorFieldName then ""
        else nl +:+ tab +:+ tab +:+ tab)
       +:+ field +:+ "=" +:+ valueText evt field)
  /\ hasEscape (writeFields w evt buf)
     = hasEscape buf
       || existsb (fun field => hasEscape field || hasEscape (valueText evt field))
            (fieldOrder w evt).
Proof.
  intros Hnc Hfn Hfv Hen Hev.
  pose proof (fun field => fieldEntry_NoColor w evt field Hnc Hfn Hfv Hen Hev)
    as Hentry.
  split; [exact Hentry|].
  rewrite writeFields_concat, !hasEscape_app. f_equal.
  assert (Hsep : hasEscape (blockSeparator w evt buf) = false).
  { unfold blockSeparator. destruct (_ && _); reflexivity. }
  rewrite Hsep. simpl.
  induction (fieldOrder w evt) as [|field rest IH]; [reflexivity|].
  assert (He : hasEscape (fieldEntry w evt field)
               = hasEscape field || hasEscape (valueText evt field)).
  { rewrite Hentry, !hasEscape_app.
    destruct (String.eqb field ErrorFieldName); reflexivity. }
  destruct rest as [|field' rest'].
  - simpl. rewrite He, orb_false_r. reflexivity.
  - change (String.concat " " (map (fieldEntry w evt) (field :: field' :: rest')))
      with (fieldEntry w evt field +:+ " " +:+
            String.concat " " (map (fieldEntry w evt) (field' :: rest'))).
    rewrite !hasEscape_app, He, IH. reflexivity.
Qed.

End NoColorFields.

Lemma writeFields_NoColor_witness :
  hasEscape (writeFields (writerWith true (Some []) None) evtAB "") = false.
Proof.
  destruct (writeFields_NoColor (writerWith true (Some []) None) evtAB ""
              eq_refl eq_refl eq_refl eq_refl eq_refl) as [_ H].
  rewrite H. vm_compute. reflexivity.
Defined.

(** ** The whole line and the flush *)

Section Line.
Context {rt : Runtime} {S : Type} {sink : ioWriter S}.

(** X14. Without a hook and with a level that can be formatted, the line
    that [Write] hands to the sink in one call is: the texts of the parts
    with one space between two of them, two spaces if there are both
    parts and candidate fields, the entries of the fields with one space
    between two of them, and the line feed. *)
Theorem Write_line (w : CodecometWriter) (out : S) (p : string)
    (evt : gmap string Value) :
  jsonDecode p = inr evt ->
  levelFormats w evt = true ->
  FormatExtra w = None ->
  let parts :=
    String.concat " "
      (List.filter nonEmpty (map (partText w evt) (partsOrderOf w))) in
  let fields :=
    String.concat " " (map (fieldEntry w evt) (fieldOrder w evt)) in
  Write w out p =
    match WriteTo
            (parts +:+
             (if nonEmpty parts
                 && negb (bool_decide (sortedCandidates w evt = []))
              then "  " else "")
             +:+ fields +:+ nl) out with
    | Panicked => Panicked
    | Returned (out', err) => Returned (out', (len p, err))
    end.
Proof.
  intros Hdec Hl Hextra parts fields.
  pose proof (writeParts_join w evt (partsOrderOf w) "" Hl) as Hparts.
  cbv zeta in Hparts. fold parts in Hparts.
  change (nonEmpty "" && nonEmpty parts) with false in Hparts.
  change ("" +:+ "" +:+ parts) with parts in Hparts.
  rewrite (Write_flush w out p evt parts (writeFields w evt parts) Hdec Hparts).
  - rewrite writeFields_concat. fold fields.
    assert (Hsep : blockSeparator w evt parts
                   = if nonEmpty parts
                        && negb (bool_decide (sortedCandidates w evt = []))
                     then "  " else "").
    { unfold blockSeparator, nonEmpty.
      destruct (sortedCandidates w evt); reflexivity. }
    rewrite Hsep. autorewrite with strings. reflexivity.
  - unfold runFormatExtra. rewrite Hextra. reflexivity.
Qed.

(** X15. Whatever happens, [Write] calls the sink at most once, and then
    with a buffer that ends with the line feed: the state of the sink
    after a [Write] that returns is the state before it, or the state
    that one call of the sink's [Write] on such a buffer leaves. *)
Theorem Write_single_flush (w : CodecometWriter) (out out' : S) (p : string)
    (n : Z) (err : option error) :
  Write w out p = Returned (out', (n, err)) ->
  (out' = out /\ n = 0 /\ err <> None)
  \/ (exists body m e,
        ioWrite out (body +:+ nl) = (out', (m, e)) /\ n = len p
        /\ m <= len (body +:+ nl)).
Proof.
  unfold Write. intros HW.
  destruct (jsonDecode p) as [e|evt].
  { left. injection HW as <- <- <-. repeat split. discriminate. }
  destruct (writeParts w evt (partsOrderOf w) "") as [buf|]; [|discriminate].
  destruct (runFormatExtra w evt (writeFields w evt buf)) as [body [e|]].
  { left. injection HW as <- <- <-. repeat split. discriminate. }
  right. unfold WriteTo in HW. rewrite length_app_nl in HW.
  destruct (ioWrite out (body +:+ nl)) as [o [m e]] eqn:Hio.
  destruct (len (body +:+ nl) <? m) eqn:Hm; [discriminate|].
  apply Z.ltb_ge in Hm.
  exists body, m, e.
  destruct e as [e|]; [|destruct (m =? len (body +:+ nl))];
    injection HW as <- <- <-; repeat split;
    try reflexivity; try exact Hio; exact Hm.
Qed.

End Line.

Lemma Write_line_witness :
  Write (writerWith true (Some [MessageFieldName]) None) ""
    ("{" +:+ quoted "message" +:+ ":" +:+ quoted "hi\n" +:+ "}")
  = Returned ("hi" +:+ nl +:+ nl, (18, None)).
Proof.
  rewrite (Write_line (writerWith true (Some [MessageFieldName]) None) ""
             textMessage {[ "message" := VString ("hi" +:+ nl) ]});
    vm_compute; reflexivity.
Defined.

Lemma Write_single_flush_witness :
  (ClosedFile = ClosedFile /\ 17 = 0 /\ Some "file already closed" <> None)
  \/ (exists body m e,
        ioWrite ClosedFile (body +:+ nl) = (ClosedFile, (m, e))
        /\ 17 = len textAB /\ m <= len (body +:+ nl)).
Proof.
  apply (Write_single_flush (writerWith true (Some []) None) ClosedFile
           ClosedFile textAB 17 (Some "file already closed")).
  vm_compute. reflexivity.
Defined.

(** ** Numeric timestamps *)

Lemma digitVal_range (c : ascii) (d : Z) : digitVal c = Some d -> 0 <= d <= 9.
Proof.
  unfold digitVal, inRange. destruct (_ && _) eqn:E; [|discriminate].
  intros [= <-]. apply andb_true_iff in E as [E1 E2].
  apply Z.leb_le in E1, E2. lia.
Qed.

Lemma parseDigits_nonneg (l : list ascii) (acc z : Z) :
  0 <= acc -> parseDigits acc l = Some z -> 0 <= z.
Proof.
  revert acc. induction l as [|c l IH]; intros acc Hacc; simpl.
  - intros [= <-]. exact Hacc.
  - destruct (digitVal c) as [d|] eqn:Hd; [|discriminate].
    apply digitVal_range in Hd. apply IH. lia.
Qed.

Lemma parseUint_nonneg (l : list ascii) (z : Z) : parseUint l = Some z -> 0 <= z.
Proof.
  unfold parseUint. destruct l; [discriminate|].
  apply parseDigits_nonneg. lia.
Qed.

(** What [json.Number.Int64] accepts is in the range of [int64]. *)
Lemma ParseInt64_range (tok : string) (i : Z) :
  ParseInt64 tok = Some i -> - 2 ^ 63 <= i < 2 ^ 63.
Proof.
  unfold ParseInt64. destruct (bytes tok) as [|c r]; [discriminate|].
  destruct (Ascii.eqb c "+"); [|destruct (Ascii.eqb c "-")];
    match goal with
    | |- context [parseUint ?l] =>
        destruct (parseUint l) as [un|] eqn:Hun; [|discriminate];
        apply parseUint_nonneg in Hun
    end.
  - destruct (un <? 2 ^ 63) eqn:E; [|discriminate].
    intros [= <-]. apply Z.ltb_lt in E. lia.
  - destruct (un <=? 2 ^ 63) eqn:E; [|discriminate].
    intros [= <-]. apply Z.leb_le in E. lia.
  - destruct (un <? 2 ^ 63) eqn:E; [|discriminate].
    intros [= <-]. apply Z.ltb_lt in E. lia.
Qed.

Lemma wrap64_small (z : Z) : - 2 ^ 63 <= z < 2 ^ 63 -> wrap64 z = z.
Proof. intros Hz. unfold wrap64. rewrite Z.mod_small; lia. Qed.

Section Timestamps.
Context {rt : Runtime}.

(** X16. A numeric timestamp. A token that is not a decimal [int64] (a
    fraction, an exponent, a value out of range) is written as it is.
    Otherwise the value is read in the unit that [zerolog.TimeFieldFormat]
    names: nanoseconds as they are, and micro- or milliseconds multiplied
    by 1000 or 1000000 in [int64], which is exact as long as the product
    is in the range of [int64]; any other setting reads seconds. *)
Theorem consoleDefaultFormatTimestamp_number (timeFormat : string)
    (noColor : bool) (tok : string) :
  let layout :=
    if String.eqb timeFormat "" then consoleDefaultTimeFormat else timeFormat in
  let shown (sec nsec : Z) :=
    colorize (time_Format (time_Unix sec nsec) layout) colorDarkGray noColor in
  (ParseInt64 tok = None ->
   consoleDefaultFormatTimestamp timeFormat noColor (VNumber tok)
   = colorize tok colorDarkGray noColor)
  /\ (forall i : Z,
        ParseInt64 tok = Some i ->
        - 2 ^ 63 <= i < 2 ^ 63
        /\ (TimeFieldFormat = TimeFormatUnixNano ->
            consoleDefaultFormatTimestamp timeFormat noColor (VNumber tok)
            = shown 0 i)
        /\ (TimeFieldFormat = TimeFormatUnixMicro ->
            - 2 ^ 63 <= i * 1000 < 2 ^ 63 ->
            consoleDefaultFormatTimestamp timeFormat noColor (VNumber tok)
            = shown 0 (i * 1000))
        /\ (TimeFieldFormat = TimeFormatUnixMs ->
            - 2 ^ 63 <= i * 1000000 < 2 ^ 63 ->
            consoleDefaultFormatTimestamp timeFormat noColor (VNumber tok)
            = shown 0 (i * 1000000))
        /\ (TimeFieldFormat <> TimeFormatUnixNano ->
            TimeFieldFormat <> TimeFormatUnixMicro ->
            TimeFieldFormat <> TimeFormatUnixMs ->
            consoleDefaultFormatTimestamp timeFormat noColor (VNumber tok)
            = shown i 0)).
Proof.
  intros layout shown. unfold consoleDefaultFormatTimestamp. fold layout.
  split.
  - intros ->. reflexivity.
  - intros i Hi. rewrite Hi. split; [apply (ParseInt64_range tok i Hi)|].
    unfold shown. repeat split.
    + intros ->. reflexivity.
    + intros -> Hr. simpl. rewrite (wrap64_small _ Hr). reflexivity.
    + intros -> Hr. simpl. rewrite (wrap64_small _ Hr). reflexivity.
    + intros H1 H2 H3.
      apply String.eqb_neq in H1, H2, H3. rewrite H1, H2, H3. reflexivity.
Qed.

End Timestamps.

Lemma consoleDefaultFormatTimestamp_number_witness :
  ParseInt64 "1700000000" = Some 1700000000
  /\ consoleDefaultFormatTimestamp "15:04" true (VNumber "1700000000")
     = time_Format (time_Unix 1700000000 0) "15:04"
  /\ ParseInt64 "1.5" = None
  /\ consoleDefaultFormatTimestamp "15:04" true (VNumber "1.5") = "1.5".
Proof.
  split; [reflexivity|].
  destruct (consoleDefaultFormatTimestamp_number "15:04" true "1700000000")
    as [_ Hint].
  destruct (Hint 1700000000 eq_refl) as (_ & _ & _ & _ & Hsec).
  split; [apply Hsec; discriminate|].
  split; [reflexivity|].
  destruct (consoleDefaultFormatTimestamp_number "15:04" true "1.5")
    as [Hpass _].
  apply (Hpass eq_refl).
Defined.

(** ** The width of the context *)

Lemma runeCount_ascii (l : list ascii) :
  forallb (fun c => byteOf c <? 128) l = true ->
  runeCountFrom 0 l = length l.
Proof.
  induction l as [|c l IH]; [reflexivity|].
  simpl. intros H. apply andb_true_iff in H as [Hc Hl].
  unfold runeSize. rewrite Hc. simpl. rewrite (IH Hl). reflexivity.
Qed.

Lemma length_spaces (n : nat) : String.length (spaces n) = n.
Proof. induction n as [|n IH]; [reflexivity|]. simpl. rewrite IH. reflexivity. Qed.

Section ContextWidth.
Context {rt : Runtime}.

(** X17. The default formatter of the context pads and never cuts: an
    ASCII context of fewer than six bytes is followed by spaces up to six,
    a longer one is written whole, and a nil context is written as
    [core] and two spaces; the text is wrapped in bold. *)
Theorem consoleDefaultFormatContext_width (s : string) :
  isASCII s = true ->
  consoleDefaultFormatContext (VString s)
  = colorize (s +:+ spaces (6 - String.length s)) colorBold false
  /\ String.length (s +:+ spaces (6 - String.length s))
     = Nat.max 6 (String.length s)
  /\ consoleDefaultFormatContext VNil
     = colorize "core  " colorBold false.
Proof.
  intros Hs. split; [|split].
  - unfold consoleDefaultFormatContext, Sprintf_pad6, padRight,
      RuneCountInString.
    unfold isASCII in Hs. rewrite (runeCount_ascii _ Hs).
    assert (Hlen : forall t, length (bytes t) = String.length t).
    { induction t as [|c t IH]; [reflexivity|].
      unfold bytes in *. simpl. rewrite IH. reflexivity. }
    rewrite Hlen. reflexivity.
  - rewrite length_app, length_spaces. lia.
  - reflexivity.
Qed.

End ContextWidth.

Lemma consoleDefaultFormatContext_width_witness :
  consoleDefaultFormatContext (VString "exec/PreExec")
  = esc +:+ "[1mexec/PreExec" +:+ esc +:+ "[0m"
  /\ consoleDefaultFormatContext (VString "net")
     = esc +:+ "[1mnet   " +:+ esc +:+ "[0m".
Proof.
  destruct (consoleDefaultFormatContext_width "exec/PreExec" eq_refl)
    as (H1 & _ & _).
  destruct (consoleDefaultFormatContext_width "net" eq_refl) as (H2 & _ & _).
  split; [rewrite H1|rewrite H2]; vm_compute; reflexivity.
Defined.

(** ** The order and the block at concrete records *)

Lemma fieldOrder_ascending_witness :
  exists rest,
    fieldOrder (writerWith true (Some []) None)
      {[ "error" := VString "boom"; "b" := VString "1"; "a" := VString "2" ]}
    = ErrorFieldName :: rest
    /\ StronglySorted String.le rest /\ ErrorFieldName ∉ rest.
Proof.
  destruct (fieldOrder_ascending (writerWith true (Some []) None)
              {[ "error" := VString "boom"; "b" := VString "1";
                 "a" := VString "2" ]}) as [_ H].
  apply H. apply (bool_decide_unpack _). vm_compute. exact I.
Defined.

Lemma writeFields_block_witness :
  writeFields (writerWith true None None) {[ "message" := VString "hi" ]}
    "<nil> ??? hi"
  = "<nil> ??? hi".
Proof.
  destruct (writeFields_block (writerWith true None None)
              {[ "message" := VString "hi" ]} "<nil> ??? hi") as [_ H].
  apply H. reflexivity.
Defined.

(** ** A sink that takes a part of the line *)

Section ShortWrite.
Context {rt : Runtime} {S : Type} {sink : ioWriter S}.

(** X18. When the sink reports no error but fewer bytes than the line
    has, [Write] returns [len(p)] with [io.ErrShortWrite]; when it reports
    more bytes than it was given, [Write] panics. *)
Theorem Write_short_write (w : CodecometWriter) (out out' : S) (p : string)
    (evt : gmap string Value) (buf body : string) (m : Z) :
  jsonDecode p = inr evt ->
  writeParts w evt (partsOrderOf w) "" = Some buf ->
  runFormatExtra w evt (writeFields w evt buf) = (body, None) ->
  ioWrite out (body +:+ nl) = (out', (m, None)) ->
  (m < len (body +:+ nl) ->
   Write w out p = Returned (out', (len p, Some ErrShortWrite)))
  /\ (len (body +:+ nl) < m -> Write w out p = Panicked).
Proof.
  intros Hdec Hparts Hextra Hio.
  rewrite (Write_flush w out p evt buf body Hdec Hparts Hextra).
  unfold WriteTo. rewrite length_app_nl, Hio. split; intros Hm.
  - destruct (len (body +:+ nl) <? m) eqn:E; [apply Z.ltb_lt in E; lia|].
    destruct (m =? len (body +:+ nl)) eqn:E'; [apply Z.eqb_eq in E'; lia|].
    reflexivity.
  - apply Z.ltb_lt in Hm. rewrite Hm. reflexivity.
Qed.

End ShortWrite.

Lemma Write_short_write_witness :
  Write (writerWith true (Some []) None) StalledPipe textAB
  = Returned (StalledPipe, (17, Some "short write")).
Proof.
  pose (w := writerWith true (Some []) None).
  pose (body := nl +:+ tab +:+ tab +:+ tab +:+ "a=2 " +:+ nl +:+ tab +:+ tab
                +:+ tab +:+ "b=1").
  assert (Hdec : jsonDecode textAB = inr evtAB) by reflexivity.
  assert (Hparts : writeParts w evtAB (partsOrderOf w) "" = Some "")
    by reflexivity.
  assert (Hextra : runFormatExtra w evtAB (writeFields w evtAB "")
                   = (body, None)) by (vm_compute; reflexivity).
  assert (Hio : ioWrite StalledPipe (body +:+ nl) = (StalledPipe, (0, None)))
    by reflexivity.
  destruct (Write_short_write w StalledPipe StalledPipe textAB evtAB "" body 0
              Hdec Hparts Hextra Hio) as [Hshort _].
  apply Hshort. vm_compute. reflexivity.
Defined.
